(** * mcp-store-example: the product tool server and its orchestrating client

    A shallow embedding of the three Go programs of the repository:

    - [cmd/server/main.go], the tool server with structured replies
      (module [CmdServer]);
    - [server/server.go], the earlier minimal tool server (module
      [LegacyServer]);
    - the interactive client that spawns the server, talks JSON-RPC over
      its pipes and chains tool results (module [Client]).

    Go's [float64] is Rocq's primitive binary64 [float]; Go's
    [interface{}] is the inductive [Value]; [map[string]interface{}] is a
    [gmap string Value], with [None] for the nil map where the code tells
    the two apart. *)

From Stdlib Require Import ZArith String Ascii List Bool Lia.
From Stdlib Require Import Floats.PrimFloat Floats.FloatOps Floats.SpecFloat
  Floats.FloatAxioms.
From stdpp Require Import gmap strings list fin_maps pretty sorting.

Local Open Scope string_scope.
Local Open Scope Z_scope.

(** ** Go's numeric conversions and [fmt] verbs on [float64] *)

Module Float64.

(** The exact value of a finite float as a sign, a mantissa and a binary
    exponent: [(-1)^s * m * 2^e]. *)
Definition decompose (f : float) : spec_float := Prim2SF f.

Definition minInt64 : Z := - 2 ^ 63.
Definition maxInt64 : Z := 2 ^ 63 - 1.

(** [int(f)] on a 64-bit target: the fraction is discarded (truncation
    towards zero); a value that does not fit, an infinity or a NaN gives
    the "integer indefinite" value [-2^63], as amd64's CVTTSD2SQ does
    (the language leaves that case to the implementation). *)
Definition to_int (f : float) : Z :=
  match decompose f with
  | S754_zero _ => 0
  | S754_finite s m e =>
      let a := if (0 <=? e) then Z.pos m * 2 ^ e else Z.pos m / 2 ^ (- e) in
      let v := if s then - a else a in
      if (minInt64 <=? v) && (v <=? maxInt64) then v else minInt64
  | S754_infinity _ | S754_nan => minInt64
  end.

(** [float64(n)] for an [int] [n]: the nearest float, ties to even. *)
Definition of_int (n : Z) : float :=
  SF2Prim (binary_normalize prec emax n 0 false).

(** [x != y], [x <= y], [x > y] on float64 (IEEE comparisons). *)
Definition neq (x y : float) : bool := negb (x =? y)%float.
Definition le (x y : float) : bool := (x <=? y)%float.
Definition gt (x y : float) : bool := (y <? x)%float.

(** Round [n / d] ([d > 0], [n >= 0]) to the nearest integer, ties to
    even. *)
Definition round_half_even (n d : Z) : Z :=
  let q := n / d in
  let r := n mod d in
  match (2 * r) ?= d with
  | Lt => q
  | Gt => q + 1
  | Eq => if Z.even q then q else q + 1
  end.

(** The nearest integer to [|f| * 10^k], ties to even, from the exact
    binary value of [f]. *)
Definition scaled_round (k : Z) (m : positive) (e : Z) : Z :=
  if 0 <=? e then Z.pos m * 2 ^ e * 10 ^ k
  else round_half_even (Z.pos m * 10 ^ k) (2 ^ (- e)).

Definition pad2 (n : Z) : string :=
  if n <? 10 then "0" +:+ pretty n else pretty n.

(** [fmt.Sprintf("%.2f", f)]. *)
Definition fmt_2f (f : float) : string :=
  match decompose f with
  | S754_nan => "NaN"
  | S754_infinity s => if s then "-Inf" else "+Inf"
  | S754_zero s => if s then "-0.00" else "0.00"
  | S754_finite s m e =>
      let n := scaled_round 2 m e in
      (if s then "-" else "") +:+ pretty (n / 100) +:+ "." +:+ pad2 (n mod 100)
  end.

(** [fmt.Sprintf("%.0f", f)]. *)
Definition fmt_0f (f : float) : string :=
  match decompose f with
  | S754_nan => "NaN"
  | S754_infinity s => if s then "-Inf" else "+Inf"
  | S754_zero s => if s then "-0" else "0"
  | S754_finite s m e =>
      (if s then "-" else "") +:+ pretty (scaled_round 0 m e)
  end.

End Float64.


(** Go string literals that contain double quotes are written here with
    ['] in their place. *)
Definition dq (s : string) : string :=
  string_of_list_ascii
    (map (fun c => if (N_of_ascii c =? 39)%N then ascii_of_nat 34 else c)
         (list_ascii_of_string s)).

(** ** Go values

    What an [interface{}] holds in these programs: the results of
    [json.Unmarshal] into [interface{}] (nil, bool, float64, string,
    [[]interface{}], [map[string]interface{}]) and, on the way out, the
    [int]s and the slice of item records the handlers put into their
    reply records. *)

#[local] Set Warnings "-register-all".

Inductive Value : Type :=
| VNil
| VBool (b : bool)
| VInt (n : Z)
| VFloat (f : float)
| VString (s : string)
| VSlice (l : list Value)
| VNilSlice
| VMap (m : gmap string Value).

(** A slice variable declared with [var] and grown by [append] only: nil
    exactly when nothing was appended. *)
Definition slice_value (l : list Value) : Value :=
  match l with
  | [] => VNilSlice
  | _ => VSlice l
  end.

(** Go [error] values: the two kinds of error [json.Unmarshal] reports,
    the error of a failed write to a pipe, [fmt.Errorf] with a fixed text,
    and [fmt.Errorf] with a text and the [%v] of another error. *)
Inductive error : Type :=
| SyntaxError
| UnmarshalTypeError (kind : string)
| WriteError
| Errorf (msg : string)
| ErrorfV (msg : string) (cause : error).

(** What a call does: it returns [(v, nil)], returns [(_, err)], or does
    not return because of a run-time panic (a failed type assertion
    without the comma-ok form, a write to a nil map). *)
Inductive Result (A : Type) : Type :=
| Ok (a : A)
| Err (e : error)
| Panic.
Arguments Ok {A} a.
Arguments Err {A} e.
Arguments Panic {A}.

(** ** encoding/json

    A model of the two entry points the programs use, [json.Marshal] on a
    value and [json.Unmarshal] into an [interface{}] or a
    [map[string]interface{}]. Strings are byte strings and are taken to be
    valid UTF-8. *)

Module json.

(** *** Marshal *)

Definition dquote : string := String (ascii_of_nat 34) "".

Definition hex_digit (n : Z) : ascii :=
  ascii_of_N (Z.to_N (if n <? 10 then 48 + n else 87 + n)).

Definition u00 (c : ascii) : string :=
  let n := Z.of_N (N_of_ascii c) in
  "\u00" +:+ String (hex_digit (n / 16)) (String (hex_digit (n mod 16)) "").

(** One byte of a string literal; [<], [>] and [&] are escaped as
    [Marshal] does (HTML-safe output). *)
Definition escape_byte (c : ascii) : string :=
  let n := N_of_ascii c in
  if (n =? 34)%N then "\" +:+ String c ""
  else if (n =? 92)%N then "\\"
  else if (n =? 8)%N then "\b"
  else if (n =? 12)%N then "\f"
  else if (n =? 10)%N then "\n"
  else if (n =? 13)%N then "\r"
  else if (n =? 9)%N then "\t"
  else if (n <? 32)%N then u00 c
  else if (n =? 60)%N || (n =? 62)%N || (n =? 38)%N then u00 c
  else String c "".

(** U+2028 and U+2029 (bytes E2 80 A8 and E2 80 A9) are written as
    escapes, every other byte through [escape_byte]. *)
Fixpoint escape (s : string) : string :=
  match s with
  | EmptyString => ""
  | String c1 (String c2 (String c3 rest) as tl) =>
      if (N_of_ascii c1 =? 226)%N && (N_of_ascii c2 =? 128)%N
         && ((N_of_ascii c3 =? 168)%N || (N_of_ascii c3 =? 169)%N)
      then (if (N_of_ascii c3 =? 168)%N then "\u2028" else "\u2029") +:+ escape rest
      else escape_byte c1 +:+ escape tl
  | String c tl => escape_byte c +:+ escape tl
  end.

Definition quote (s : string) : string := dquote +:+ escape s +:+ dquote.

(** The shortest decimal that reads back as the float [m * 2^e]
    ([strconv]'s shortest formatting), as an integer [N] and a decimal
    exponent [p]: the digits are those of [N], the value [N * 10^p]. *)
Section Shortest.
Variables (X L U D : Z) (inclusive : bool).

(** [X/D] is the float, [L/D] and [U/D] the ends of the interval of
    reals that round to it. At the decimal position [p], [down] and
    [up] are the two multiples of [10^p] around [X/D]. *)
Definition at_position (p : Z) : option Z :=
  let sx := if 0 <=? p then X else X * 10 ^ (- p) in
  let sl := if 0 <=? p then L else L * 10 ^ (- p) in
  let su := if 0 <=? p then U else U * 10 ^ (- p) in
  let sd := if 0 <=? p then D * 10 ^ p else D in
  let q := sx / sd in
  let down := q * sd in
  let up := (q + 1) * sd in
  let okdown := (sl <? down) || (inclusive && (sl =? down)) in
  let okup := (up <? su) || (inclusive && (up =? su)) in
  if okdown && okup then
    Some (match (2 * (sx - down)) ?= sd with
          | Lt => q
          | Gt => q + 1
          | Eq => if Z.even q then q else q + 1
          end)
  else if okdown then Some q
  else if okup then Some (q + 1)
  else None.

Fixpoint search (fuel : nat) (p : Z) : Z * Z :=
  match at_position p with
  | Some n => (n, p)
  | None =>
      match fuel with
      | O => (X / D, 0)
      | S fuel' => search fuel' (p - 1)
      end
  end.
End Shortest.

Definition shortest (m : positive) (e : Z) : Z * Z :=
  let c := e - 2 in
  let k := if 0 <=? c then 2 ^ c else 1 in
  let D := if 0 <=? c then 1 else 2 ^ (- c) in
  let X := 4 * Z.pos m * k in
  let U := (4 * Z.pos m + 2) * k in
  let L := (if (Z.pos m =? 2 ^ 52) && negb (e =? -1074)
            then 4 * Z.pos m - 1 else 4 * Z.pos m - 2) * k in
  let bits := Z.log2 U - Z.log2 D + 1 in
  let p0 := bits * 30103 / 100000 + 1 in
  let pmin := Z.min 0 c in
  search X L U D (Z.even (Z.pos m)) (Z.to_nat (p0 - pmin)) p0.

(** Drop the trailing zeros of the digits, raising the exponent. *)
Fixpoint trim_zeros (fuel : nat) (n p : Z) : Z * Z :=
  match fuel with
  | O => (n, p)
  | S fuel' =>
      if (n mod 10 =? 0) && negb (n =? 0)
      then trim_zeros fuel' (n / 10) (p + 1) else (n, p)
  end.

Definition digits_of (n : Z) : string := pretty n.

Fixpoint zeros (k : nat) : string :=
  match k with
  | O => ""
  | S k' => "0" +:+ zeros k'
  end.

(** [strconv.AppendFloat(b, f, 'f', -1, 64)] on the digits. *)
Definition format_f (n p : Z) : string :=
  if 0 <=? p then digits_of (n * 10 ^ p)
  else
    let ds := digits_of (n mod 10 ^ (- p)) in
    digits_of (n / 10 ^ (- p)) +:+ "." +:+
    zeros (Z.to_nat (- p) - String.length ds) +:+ ds.

(** [strconv.AppendFloat(b, f, 'e', -1, 64)] on the digits, with
    [Marshal]'s clean-up of a one-digit exponent ([e-07] becomes [e-7]). *)
Definition format_e (n p : Z) : string :=
  let ds := digits_of n in
  let x := p + Z.of_nat (String.length ds) - 1 in
  let mant :=
    match ds with
    | String d EmptyString => String d ""
    | String d rest => String d ("." +:+ rest)
    | EmptyString => ""
    end in
  mant +:+ "e" +:+ (if x <? 0 then "-" else "+") +:+ digits_of (Z.abs x).

(** A float64: an error for NaN and the infinities; otherwise the
    shortest digits, in the [f] format unless the magnitude is below
    [1e-6] or at least [1e21]. *)
Definition encode_float (f : float) : option string :=
  match Float64.decompose f with
  | S754_nan | S754_infinity _ => None
  | S754_zero s => Some (if s then "-0" else "0")
  | S754_finite s m e =>
      let '(n0, p0) := shortest m e in
      let '(n, p) := trim_zeros 400 n0 p0 in
      let a := abs f in
      let body :=
        if (a <? 0x1.0c6f7a0b5ed8dp-20)%float || (0x1.b1ae4d6e2ef5p+69 <=? a)%float
        then format_e n p else format_f n p in
      Some ((if s then "-" else "") +:+ body)
  end.

Fixpoint insert_field (kv : string * string) (l : list (string * string))
  : list (string * string) :=
  match l with
  | [] => [kv]
  | kv' :: l' =>
      if String.leb (fst kv) (fst kv') then kv :: l else kv' :: insert_field kv l'
  end.

(** Map keys are written in sorted (byte-wise) order. *)
Definition sort_fields (l : list (string * string)) : list (string * string) :=
  foldr insert_field [] l.

Fixpoint join (sep : string) (l : list string) : string :=
  match l with
  | [] => ""
  | [x] => x
  | x :: l' => x +:+ sep +:+ join sep l'
  end.

Definition all_some {A} (l : list (option A)) : option (list A) :=
  foldr (fun o acc => match o, acc with
                      | Some x, Some xs => Some (x :: xs)
                      | _, _ => None
                      end) (Some []) l.

Fixpoint Marshal (v : Value) : option string :=
  match v with
  | VNil | VNilSlice => Some "null"
  | VBool b => Some (if b then "true" else "false")
  | VInt n => Some (pretty n)
  | VFloat f => encode_float f
  | VString s => Some (quote s)
  | VSlice l =>
      match all_some (map Marshal l) with
      | Some xs => Some ("[" +:+ join "," xs +:+ "]")
      | None => None
      end
  | VMap m =>
      let fields := map_to_list (Marshal <$> m) in
      match all_some (map (fun kv : string * option string =>
                             match snd kv with
                             | Some x => Some (fst kv, x)
                             | None => None
                             end) fields) with
      | Some kvs =>
          Some ("{" +:+ join "," (map (fun kv : string * string =>
                                         quote (fst kv) +:+ ":" +:+ snd kv)
                                      (sort_fields kvs)) +:+ "}")
      | None => None
      end
  end.

(** [b, _ := json.Marshal(v); string(b)]: the empty string when
    [Marshal] fails. *)
Definition Marshal_string (v : Value) : string :=
  match Marshal v with
  | Some s => s
  | None => ""
  end.

(** *** Unmarshal *)

Inductive token : Type :=
| TLBrace | TRBrace | TLBracket | TRBracket | TColon | TComma
| TString (s : string)
| TNumber (f : float)
| TTrue | TFalse | TNull.

Definition code (c : ascii) : Z := Z.of_N (N_of_ascii c).
Definition byte (n : Z) : ascii := ascii_of_N (Z.to_N n).

Definition is_digit (c : ascii) : bool := (48 <=? code c) && (code c <=? 57).
Definition is_lower (c : ascii) : bool := (97 <=? code c) && (code c <=? 122).
Definition is_space (c : ascii) : bool :=
  (code c =? 32) || (code c =? 9) || (code c =? 10) || (code c =? 13).

Definition hex_val (c : ascii) : option Z :=
  let n := code c in
  if is_digit c then Some (n - 48)
  else if (97 <=? n) && (n <=? 102) then Some (n - 87)
  else if (65 <=? n) && (n <=? 70) then Some (n - 55)
  else None.

(** The UTF-8 encoding of a code point. *)
Definition utf8 (cp : Z) : list ascii :=
  if cp <? 128 then [byte cp]
  else if cp <? 2048 then [byte (192 + cp / 64); byte (128 + cp mod 64)]
  else if cp <? 65536 then
    [byte (224 + cp / 4096); byte (128 + cp / 64 mod 64); byte (128 + cp mod 64)]
  else
    [byte (240 + cp / 262144); byte (128 + cp / 4096 mod 64);
     byte (128 + cp / 64 mod 64); byte (128 + cp mod 64)].

(** The pieces of a string literal, in order: a byte, or the code unit
    of a [\uXXXX] escape. A high surrogate followed by a low one is one
    code point; a surrogate on its own is U+FFFD. *)
Fixpoint unquote (items : list (ascii + Z)) : list ascii :=
  match items with
  | [] => []
  | inl c :: rest => c :: unquote rest
  | inr u :: rest =>
      if (55296 <=? u) && (u <? 56320) then
        match rest with
        | inr u2 :: rest' =>
            if (56320 <=? u2) && (u2 <? 57344)
            then (utf8 (65536 + (u - 55296) * 1024 + (u2 - 56320)) ++ unquote rest')%list
            else (utf8 65533 ++ unquote rest)%list
        | _ => (utf8 65533 ++ unquote rest)%list
        end
      else if (56320 <=? u) && (u <? 57344) then (utf8 65533 ++ unquote rest)%list
      else (utf8 u ++ unquote rest)%list
  end.

Fixpoint take_digits (cs : list ascii) (acc : Z) (cnt : Z) : Z * Z * list ascii :=
  match cs with
  | c :: cs' =>
      if is_digit c then take_digits cs' (acc * 10 + (code c - 48)) (cnt + 1)
      else (acc, cnt, cs)
  | [] => (acc, cnt, cs)
  end.

(** [strconv.ParseFloat] on [mant * 10^k]: the nearest float, ties to
    even; [None] when the value is out of range. *)
Definition decimal_to_float (neg : bool) (mant k : Z) : option float :=
  let sf :=
    if mant =? 0 then S754_zero false
    else if 0 <=? k then binary_normalize prec emax (mant * 10 ^ k) 0 false
    else
      let d := 10 ^ (- k) in
      let s := Z.max 0 (Z.log2 d - Z.log2 mant + 64) in
      let q := mant * 2 ^ s / d in
      let sticky := if (mant * 2 ^ s) mod d =? 0 then 0 else 1 in
      binary_normalize prec emax (2 * q + sticky) (- s - 1) false in
  match sf with
  | S754_infinity _ | S754_nan => None
  | _ => Some (SF2Prim (if neg then SFopp sf else sf))
  end.

(** A number literal: an optional minus sign; an integer part, a
    single 0 or digits that do not start with 0; an optional fraction,
    a dot and one digit or more; an optional exponent, e or E, an
    optional sign and one digit or more. *)
Definition parse_number (cs : list ascii) : option float :=
  let '(neg, cs1) :=
    match cs with
    | c :: cs' => if code c =? 45 then (true, cs') else (false, cs)
    | [] => (false, cs)
    end in
  let '(ip, icnt, cs2) := take_digits cs1 0 0 in
  let leading_zero :=
    match cs1 with
    | c :: _ => (code c =? 48) && (1 <? icnt)
    | [] => false
    end in
  if (icnt =? 0) || leading_zero then None
  else
    let frac :=
      match cs2 with
      | c :: cs' =>
          if code c =? 46 then
            let '(fp, fcnt, cs3) := take_digits cs' ip 0 in
            if fcnt =? 0 then None else Some (fp, fcnt, cs3)
          else Some (ip, 0, cs2)
      | [] => Some (ip, 0, cs2)
      end in
    match frac with
    | None => None
    | Some (mant, fcnt, cs3) =>
        match cs3 with
        | [] => decimal_to_float neg mant (- fcnt)
        | c :: cs' =>
            if (code c =? 101) || (code c =? 69) then
              let '(eneg, cs4) :=
                match cs' with
                | c' :: cs'' =>
                    if code c' =? 45 then (true, cs'')
                    else if code c' =? 43 then (false, cs'')
                    else (false, cs')
                | [] => (false, cs')
                end in
              let '(ev, ecnt, cs5) := take_digits cs4 0 0 in
              match cs5 with
              | [] =>
                  if ecnt =? 0 then None
                  else decimal_to_float neg mant ((if eneg then - ev else ev) - fcnt)
              | _ => None
              end
            else None
        end
    end.

Definition parse_literal (cs : list ascii) : option token :=
  let s := string_of_list_ascii cs in
  if String.eqb s "true" then Some TTrue
  else if String.eqb s "false" then Some TFalse
  else if String.eqb s "null" then Some TNull
  else None.

(** The scanner's mode between two bytes. The accumulators are in
    reverse order. *)
Inductive mode : Type :=
| MDefault
| MString (acc : list (ascii + Z))
| MEscape (acc : list (ascii + Z))
| MUnicode (acc : list (ascii + Z)) (hex : list Z)
| MNumber (acc : list ascii)
| MLiteral (acc : list ascii).

Definition lex_default (c : ascii) : option (mode * list token) :=
  let n := code c in
  if is_space c then Some (MDefault, [])
  else if n =? 123 then Some (MDefault, [TLBrace])
  else if n =? 125 then Some (MDefault, [TRBrace])
  else if n =? 91 then Some (MDefault, [TLBracket])
  else if n =? 93 then Some (MDefault, [TRBracket])
  else if n =? 58 then Some (MDefault, [TColon])
  else if n =? 44 then Some (MDefault, [TComma])
  else if n =? 34 then Some (MString [], [])
  else if (n =? 45) || is_digit c then Some (MNumber [c], [])
  else if is_lower c then Some (MLiteral [c], [])
  else None.

Definition number_byte (c : ascii) : bool :=
  let n := code c in
  is_digit c || (n =? 46) || (n =? 101) || (n =? 69) || (n =? 43) || (n =? 45).

Definition unescape (c : ascii) : option ascii :=
  let n := code c in
  if (n =? 34) || (n =? 92) || (n =? 47) then Some c
  else if n =? 98 then Some (byte 8)
  else if n =? 102 then Some (byte 12)
  else if n =? 110 then Some (byte 10)
  else if n =? 114 then Some (byte 13)
  else if n =? 116 then Some (byte 9)
  else None.

(** One byte of input: the next mode and the tokens completed by it. *)
Definition lex_step (m : mode) (c : ascii) : option (mode * list token) :=
  match m with
  | MDefault => lex_default c
  | MString acc =>
      if code c =? 34
      then Some (MDefault, [TString (string_of_list_ascii (unquote (rev acc)))])
      else if code c =? 92 then Some (MEscape acc, [])
      else if code c <? 32 then None
      else Some (MString (inl c :: acc), [])
  | MEscape acc =>
      if code c =? 117 then Some (MUnicode acc [], [])
      else match unescape c with
           | Some b => Some (MString (inl b :: acc), [])
           | None => None
           end
  | MUnicode acc hex =>
      match hex_val c with
      | None => None
      | Some h =>
          match hex with
          | [h3; h2; h1] =>
              Some (MString (inr (((h1 * 16 + h2) * 16 + h3) * 16 + h) :: acc), [])
          | _ => Some (MUnicode acc (h :: hex), [])
          end
      end
  | MNumber acc =>
      if number_byte c then Some (MNumber (c :: acc), [])
      else
        match parse_number (rev acc), lex_default c with
        | Some f, Some (m', ts) => Some (m', TNumber f :: ts)
        | _, _ => None
        end
  | MLiteral acc =>
      if is_lower c then Some (MLiteral (c :: acc), [])
      else
        match parse_literal (rev acc), lex_default c with
        | Some t, Some (m', ts) => Some (m', t :: ts)
        | _, _ => None
        end
  end.

Fixpoint lex (m : mode) (cs : list ascii) : option (list token) :=
  match cs with
  | [] =>
      match m with
      | MDefault => Some []
      | MNumber acc =>
          match parse_number (rev acc) with
          | Some f => Some [TNumber f]
          | None => None
          end
      | MLiteral acc =>
          match parse_literal (rev acc) with
          | Some t => Some [t]
          | None => None
          end
      | _ => None
      end
  | c :: cs' =>
      match lex_step m c with
      | Some (m', ts) =>
          match lex m' cs' with
          | Some ts' => Some (ts ++ ts')%list
          | None => None
          end
      | None => None
      end
  end.

(** The open containers, innermost first: an array with its elements
    so far (in reverse), or an object with its members so far and the
    key whose value is being read. *)
Inductive frame : Type :=
| InArr (acc : list Value)
| InObj (m : gmap string Value) (key : string).

Inductive expect : Type :=
| EValue        (* a value *)
| EArrStart     (* a value or the end of the array *)
| EObjStart     (* a key or the end of the object *)
| EObjKey       (* a key *)
| EColon        (* the colon after a key *)
| EAfter        (* a comma or the end of the container *)
| EDone (v : Value).

(** A value is complete: it is the document, the next element of the
    array or the value of the pending key (a repeated key keeps the
    last value). *)
Definition complete (v : Value) (st : list frame) : expect * list frame :=
  match st with
  | [] => (EDone v, [])
  | InArr acc :: st' => (EAfter, InArr (v :: acc) :: st')
  | InObj m k :: st' => (EAfter, InObj (<[k := v]> m) k :: st')
  end.

Definition maxNestingDepth : Z := 10000.

Definition open_container (f : frame) (e : expect) (st : list frame)
  : option (expect * list frame) :=
  if maxNestingDepth <=? Z.of_nat (length st) then None else Some (e, f :: st).

Definition parse_value (t : token) (allow_close : bool) (st : list frame)
  : option (expect * list frame) :=
  match t with
  | TString s => Some (complete (VString s) st)
  | TNumber f => Some (complete (VFloat f) st)
  | TTrue => Some (complete (VBool true) st)
  | TFalse => Some (complete (VBool false) st)
  | TNull => Some (complete VNil st)
  | TLBracket => open_container (InArr []) EArrStart st
  | TLBrace => open_container (InObj ∅ "") EObjStart st
  | TRBracket =>
      match allow_close, st with
      | true, InArr acc :: st' => Some (complete (VSlice (rev acc)) st')
      | _, _ => None
      end
  | _ => None
  end.

Definition parse_key (t : token) (allow_close : bool) (st : list frame)
  : option (expect * list frame) :=
  match t, st with
  | TString k, InObj m _ :: st' => Some (EColon, InObj m k :: st')
  | TRBrace, InObj m _ :: st' =>
      if allow_close then Some (complete (VMap m) st') else None
  | _, _ => None
  end.

Definition parse_step (e : expect) (st : list frame) (t : token)
  : option (expect * list frame) :=
  match e with
  | EValue => parse_value t false st
  | EArrStart => parse_value t true st
  | EObjStart => parse_key t true st
  | EObjKey => parse_key t false st
  | EColon => match t with TColon => Some (EValue, st) | _ => None end
  | EAfter =>
      match t, st with
      | TComma, InArr _ :: _ => Some (EValue, st)
      | TRBracket, InArr acc :: st' => Some (complete (VSlice (rev acc)) st')
      | TComma, InObj _ _ :: _ => Some (EObjKey, st)
      | TRBrace, InObj m _ :: st' => Some (complete (VMap m) st')
      | _, _ => None
      end
  | EDone _ => None
  end.

Fixpoint parse (e : expect) (st : list frame) (ts : list token) : option Value :=
  match ts with
  | [] => match e with EDone v => Some v | _ => None end
  | t :: ts' =>
      match parse_step e st t with
      | Some (e', st') => parse e' st' ts'
      | None => None
      end
  end.

(** The document a text holds; [None] when it is not valid JSON. *)
Definition decode (s : string) : option Value :=
  match lex MDefault (list_ascii_of_string s) with
  | Some ts => parse EValue [] ts
  | None => None
  end.

Definition Valid (s : string) : bool :=
  match decode s with Some _ => true | None => false end.

(** [var v interface{}; err := json.Unmarshal([]byte(s), &v)]. *)
Definition Unmarshal (s : string) : Result Value :=
  match decode s with
  | Some v => Ok v
  | None => Err SyntaxError
  end.

Definition kind_of (v : Value) : string :=
  match v with
  | VNil | VNilSlice => "null"
  | VBool _ => "bool"
  | VInt _ | VFloat _ => "number"
  | VString _ => "string"
  | VSlice _ => "array"
  | VMap _ => "object"
  end.

(** [var m map[string]interface{}; err := json.Unmarshal([]byte(s), &m)]:
    an object fills the map, [null] leaves it nil without an error, any
    other document is a type error and text that is not JSON a syntax
    error. *)
Definition Unmarshal_map (s : string) : Result (option (gmap string Value)) :=
  match decode s with
  | Some (VMap m) => Ok (Some m)
  | Some VNil => Ok None
  | Some v => Err (UnmarshalTypeError (kind_of v))
  | None => Err SyntaxError
  end.

End json.



(** ** The tool servers *)

(** [mcp.CallToolResult] with its text contents ([mcp.NewTextContent]). *)
Inductive TextContent : Type :=
| NewTextContent (text : string).

Record CallToolResult : Type := {
  IsError : bool;
  Content : list TextContent
}.

(** [req.GetArguments()]: the arguments object of the request, [None]
    (nil) when the request carries none. *)
Definition Arguments : Type := option (gmap string Value).

Definition Handler : Type := Arguments -> Result CallToolResult.

Record Product : Type := {
  ID : string;
  Name : string;
  Price : float
}.

(** [for _, p := range products { if p.ID == id { ... } }]: the first
    product with that id. *)
Definition lookup_product (products : list Product) (id : string) : option Product :=
  find (fun p => String.eqb (ID p) id) products.

(** *** cmd/server/main.go *)

Module CmdServer.

Definition defaultProducts : list Product := [
  {| ID := "1"; Name := "Laptop"; Price := 1000 |};
  {| ID := "2"; Name := "Smartphone"; Price := 500 |};
  {| ID := "3"; Name := "Tablet"; Price := 300 |}
].

Definition getPrice_result (product : Product) : gmap string Value :=
  <["success" := VBool true]>
  (<["product_id" := VString (ID product)]>
  (<["product_name" := VString (Name product)]>
  (<["price" := VFloat (Price product)]>
  (<["message" := VString ("The price of " +:+ Name product +:+ " is $"
                           +:+ Float64.fmt_2f (Price product))]> ∅)))).

Definition getPrice_errorResult (productID : string) : gmap string Value :=
  <["success" := VBool false]>
  (<["error" := VString "Product not found"]>
  (<["product_id" := VString productID]> ∅)).

Definition getPriceHandler : Handler := fun args =>
  match args with
  | None => Err (Errorf "no arguments provided")
  | Some args =>
      match args !! "product_id" with
      | Some (VString productID) =>
          match lookup_product defaultProducts productID with
          | Some product =>
              Ok {| IsError := false;
                    Content := [NewTextContent
                      (json.Marshal_string (VMap (getPrice_result product)))] |}
          | None =>
              Ok {| IsError := true;
                    Content := [NewTextContent
                      (json.Marshal_string (VMap (getPrice_errorResult productID)))] |}
          end
      | _ => Err (Errorf "product_id is not a string")
      end
  end.

Definition error_text (text : string) : CallToolResult :=
  {| IsError := true; Content := [NewTextContent text] |}.

(** The checks on one entry of [items]: [Some r] when the handler
    returns [r] at this entry, [None] when the entry passes. *)
Definition validate_item (itemInterface : Value) : option CallToolResult :=
  match itemInterface with
  | VMap item =>
      match item !! "product_id" with
      | Some (VString productID) =>
          match lookup_product defaultProducts productID with
          | None => Some (error_text ("Product with ID " +:+ productID +:+ " not found"))
          | Some _ =>
              match item !! "quantity" with
              | Some (VFloat quantity) =>
                  if Float64.neq quantity (Float64.of_int (Float64.to_int quantity))
                  then Some (error_text "Quantity must be an integer")
                  else if Float64.le quantity 0
                  then Some (error_text "Quantity must be greater than 0")
                  else if Float64.gt quantity 1000
                  then Some (error_text "Quantity cannot exceed 1000")
                  else None
              | _ => Some (error_text "Invalid quantity format")
              end
          end
      | _ => Some (error_text "Invalid product ID format")
      end
  | _ => Some (error_text "Invalid item format")
  end.

(** The first loop over [items]. *)
Fixpoint validate (items : list Value) : option CallToolResult :=
  match items with
  | [] => None
  | itemInterface :: rest =>
      match validate_item itemInterface with
      | Some r => Some r
      | None => validate rest
      end
  end.

Definition item_detail (productID : string) (p : Product) (quantity : Z)
    (itemTotal : float) : Value :=
  VMap (<["product_id" := VString productID]>
       (<["product_name" := VString (Name p)]>
       (<["price" := VFloat (Price p)]>
       (<["quantity" := VInt quantity]>
       (<["item_total" := VFloat itemTotal]> ∅))))).

(** The body of the second loop: [total] and [itemDetails] after one
    entry. The type assertions here have no comma-ok form. *)
Definition accumulate_item (acc : float * list Value) (itemInterface : Value)
  : option (float * list Value) :=
  let '(total, itemDetails) := acc in
  match itemInterface with
  | VMap item =>
      match item !! "product_id", item !! "quantity" with
      | Some (VString productID), Some (VFloat q) =>
          let quantity := Float64.to_int q in
          match lookup_product defaultProducts productID with
          | Some p =>
              let itemTotal := (Price p * Float64.of_int quantity)%float in
              Some ((total + itemTotal)%float,
                    (itemDetails ++ [item_detail productID p quantity itemTotal])%list)
          | None => Some (total, itemDetails)
          end
      | _, _ => None
      end
  | _ => None
  end.

(** The second loop over [items]; [None] is a panic. *)
Fixpoint accumulate (acc : float * list Value) (items : list Value)
  : option (float * list Value) :=
  match items with
  | [] => Some acc
  | itemInterface :: rest =>
      match accumulate_item acc itemInterface with
      | Some acc' => accumulate acc' rest
      | None => None
      end
  end.

Definition calculateTotal_result (total : float) (itemDetails : list Value)
  : gmap string Value :=
  <["success" := VBool true]>
  (<["total_price" := VFloat total]>
  (<["items" := slice_value itemDetails]>
  (<["item_count" := VInt (Z.of_nat (length itemDetails))]>
  (<["message" := VString ("Total price is $" +:+ Float64.fmt_2f total)]> ∅)))).

Definition calculateTotalHandler : Handler := fun args =>
  match args with
  | None => Err (Errorf "invalid arguments")
  | Some args =>
      match args !! "items" with
      | None => Err (Errorf "missing items")
      | Some (VSlice items) =>
          match validate items with
          | Some r => Ok r
          | None =>
              match accumulate (0%float, []) items with
              | Some (total, itemDetails) =>
                  Ok {| IsError := false;
                        Content := [NewTextContent
                          (json.Marshal_string
                             (VMap (calculateTotal_result total itemDetails)))] |}
              | None => Panic
              end
          end
      | Some _ => Err (Errorf "items is not an array")
      end
  end.

Definition applyDiscount_result (totalPrice discountPercentage : float)
  : gmap string Value :=
  let discountedPrice := (totalPrice * (discountPercentage / 100))%float in
  let originalPrice := totalPrice in
  let savedAmount := (originalPrice - discountedPrice)%float in
  <["success" := VBool true]>
  (<["original_price" := VFloat originalPrice]>
  (<["discount_percentage" := VFloat discountPercentage]>
  (<["discounted_price" := VFloat discountedPrice]>
  (<["saved_amount" := VFloat savedAmount]>
  (<["message" := VString
       ("Original price: $" +:+ Float64.fmt_2f originalPrice +:+ ", After "
        +:+ Float64.fmt_0f discountPercentage +:+ "% discount: $"
        +:+ Float64.fmt_2f discountedPrice +:+ " (You save: $"
        +:+ Float64.fmt_2f savedAmount +:+ ")")]> ∅))))).

Definition applyDiscountHandler : Handler := fun args =>
  match args with
  | None => Err (Errorf "invalid arguments")
  | Some args =>
      match args !! "total_price" with
      | Some (VFloat totalPrice) =>
          match args !! "discount_percentage" with
          | Some (VFloat discountPercentage) =>
              Ok {| IsError := false;
                    Content := [NewTextContent
                      (json.Marshal_string
                         (VMap (applyDiscount_result totalPrice discountPercentage)))] |}
          | _ => Err (Errorf "missing discount_percentage")
          end
      | _ => Err (Errorf "missing total_price")
      end
  end.

Definition helpText : string := dq
"Available tools:

1. get_price - Get the price of a product by ID
   Parameters: product_id (string)
   Example: {'product_id': '1'}

2. calculate_total - Calculate total price for multiple items
   Parameters: items (array of {product_id, quantity})
   Example: {'items': [{'product_id': '1', 'quantity': 2}]}

3. apply_discount - Apply discount to a total price
   Parameters: total_price (number), discount_percentage (number)
   Example: {'total_price': 1000, 'discount_percentage': 30}

Product IDs:
- '1': Laptop ($1000)
- '2': Smartphone ($500)
- '3': Tablet ($300)

Note: discount_percentage represents the percentage to keep (e.g., 30 for 30% of original price)".

Definition helpHandler : Handler := fun _ =>
  Ok {| IsError := false; Content := [NewTextContent helpText] |}.

(** The tools [main] registers with [s.AddTool], by name (their
    descriptions and parameter schemas are advertisement only). *)
Definition tools : list (string * Handler) := [
  ("help", helpHandler);
  ("get_price", getPriceHandler);
  ("calculate_total", calculateTotalHandler);
  ("apply_discount", applyDiscountHandler)
].

End CmdServer.

(** *** server/server.go *)

Module LegacyServer.

Definition defaultProducts : list Product := [
  {| ID := "1"; Name := "Laptop"; Price := 1000 |};
  {| ID := "2"; Name := "Smartphone"; Price := 500 |};
  {| ID := "3"; Name := "Tablet"; Price := 300 |}
].

Definition text_result (isError : bool) (text : string) : CallToolResult :=
  {| IsError := isError; Content := [NewTextContent text] |}.

Definition getPriceHandler : Handler := fun args =>
  match args with
  | None => Err (Errorf "no arguments provided")
  | Some args =>
      match args !! "product_id" with
      | Some (VString productID) =>
          match lookup_product defaultProducts productID with
          | Some product =>
              Ok (text_result false ("The price of " +:+ Name product +:+ " is $"
                                     +:+ Float64.fmt_2f (Price product)))
          | None => Ok (text_result true "Product not found")
          end
      | _ => Err (Errorf "product_id is not a string")
      end
  end.

(** The loop body: entries of the wrong shape are skipped
    ([continue]). *)
Definition add_item (total : float) (itemInterface : Value) : float :=
  match itemInterface with
  | VMap item =>
      match item !! "product_id", item !! "quantity" with
      | Some (VString productID), Some (VFloat quantityFloat) =>
          let quantity := Float64.to_int quantityFloat in
          match lookup_product defaultProducts productID with
          | Some p => (total + Price p * Float64.of_int quantity)%float
          | None => total
          end
      | _, _ => total
      end
  | _ => total
  end.

Definition calculateTotalHandler : Handler := fun args =>
  match args with
  | None => Err (Errorf "invalid arguments")
  | Some args =>
      match args !! "items" with
      | None => Err (Errorf "missing items")
      | Some (VSlice items) =>
          let total := fold_left add_item items 0%float in
          Ok (text_result false ("Total price is $" +:+ Float64.fmt_2f total))
      | Some _ => Err (Errorf "items is not an array")
      end
  end.

Definition discountedPrice (totalPrice discountPercentage : float) : float :=
  let discount := (totalPrice * (discountPercentage / 100))%float in
  (totalPrice - discount)%float.

Definition applyDiscountHandler : Handler := fun args =>
  match args with
  | None => Err (Errorf "invalid arguments")
  | Some args =>
      match args !! "total_price" with
      | Some (VFloat totalPrice) =>
          match args !! "discount_percentage" with
          | Some (VFloat discountPercentage) =>
              Ok (text_result false
                    ("Discounted price is $"
                     +:+ Float64.fmt_2f (discountedPrice totalPrice discountPercentage)))
          | _ => Err (Errorf "missing discount_percentage")
          end
      | _ => Err (Errorf "missing total_price")
      end
  end.

End LegacyServer.


(** ** The stdio runtime of the tool server

    [server.ServeStdio] is library code. Of it, what the client's tool
    calls meet: one reply line for one [tools/call] request line. The
    result of the handler is wrapped as
    [{jsonrpc, id, result: {content: [{type: text, text}], isError}}], an
    error of the handler or an unknown tool name as [{jsonrpc, id, error}];
    a panic of the handler ends the process. Other methods are outside
    this model. *)

Module Runtime.

Inductive exchange : Type :=
| BrokenPipe                (* the write to the child's input failed *)
| EndOfStream               (* no line came back *)
| Reply (line : string).

(** [err.Error()]; the texts of the library's own errors are not
    modelled. *)
Fixpoint Error (e : error) : string :=
  match e with
  | Errorf msg => msg
  | ErrorfV msg cause => msg +:+ ": " +:+ Error cause
  | SyntaxError => "invalid JSON"
  | UnmarshalTypeError kind => "json: cannot unmarshal " +:+ kind
  | WriteError => "write error"
  end.

Definition content_value (c : TextContent) : Value :=
  match c with
  | NewTextContent text => VMap (<["type" := VString "text"]> {["text" := VString text]})
  end.

Definition result_value (r : CallToolResult) : Value :=
  let m : gmap string Value := {["content" := VSlice (map content_value (Content r))]} in
  VMap (if IsError r then <["isError" := VBool true]> m else m).

Definition response (id : Value) (field : string) (payload : Value) : string :=
  json.Marshal_string
    (VMap (<["jsonrpc" := VString "2.0"]> (<["id" := id]> {[field := payload]}))).

Definition rpc_error (code : Z) (message : string) : Value :=
  VMap (<["code" := VInt code]> {["message" := VString message]}).

Definition arguments_of (params : gmap string Value) : Arguments :=
  match params !! "arguments" with
  | Some (VMap m) => Some m
  | _ => None
  end.

Definition lookup_tool (tools : list (string * Handler)) (name : string)
  : option Handler :=
  snd <$> find (fun t => String.eqb (fst t) name) tools.

Definition serve (tools : list (string * Handler)) (line : string) : exchange :=
  match json.decode line with
  | Some (VMap req) =>
      match req !! "method", req !! "id", req !! "params" with
      | Some (VString "tools/call"), Some id, Some (VMap params) =>
          match params !! "name" with
          | Some (VString name) =>
              match lookup_tool tools name with
              | Some handler =>
                  match handler (arguments_of params) with
                  | Ok r => Reply (response id "result" (result_value r))
                  | Err e => Reply (response id "error" (rpc_error (-32603) (Error e)))
                  | Panic => EndOfStream
                  end
              | None =>
                  Reply (response id "error"
                           (rpc_error (-32602) ("tool '" +:+ name +:+ "' not found: tool not found")))
              end
          | _ => EndOfStream
          end
      | _, _, _ => EndOfStream
      end
  | _ => EndOfStream
  end.

End Runtime.

(** ** The client *)

(** [MCPServer], the connection to the child process: the state of the
    child and the lines written to its standard input so far. *)
Record MCPServer (ChildState : Type) : Type := {
  cmd : ChildState;
  stdin : list string
}.
Arguments cmd {ChildState} _.
Arguments stdin {ChildState} _.

(** [openai.Tool] as [ListTools] fills it. *)
Record Tool : Type := {
  Function_Name : string;
  Function_Description : string;
  Function_Parameters : option (gmap string Value)
}.

(** [openai.ToolCall]: the tool's name and its arguments, a JSON text. *)
Record ToolCall : Type := {
  Call_Name : string;
  Call_Arguments : string
}.

(** What the client prints. *)
Inductive output : Type :=
| PrintConnected (name version : option Value)
| PrintErrorParsingArguments (e : error)
| PrintAutoTotalPrice (price : float)
| PrintErrorCallingTool (e : error)
| PrintErrorParsingStructured (e : error)
| PrintMessage (lastResult : string)
| PrintStructured (structuredResult : option (gmap string Value)).

Module Client.

Import Runtime.

Definition map_value (m : option (gmap string Value)) : Value :=
  match m with
  | Some m => VMap m
  | None => VNil
  end.

(** [m[k]] with its [exists] flag, on a map that may be nil. *)
Definition get (m : option (gmap string Value)) (k : string) : option Value :=
  match m with
  | Some m => m !! k
  | None => None
  end.

Definition initRequest : gmap string Value :=
  <["jsonrpc" := VString "2.0"]>
  (<["id" := VInt 1]>
  (<["method" := VString "initialize"]>
  (<["params" := VMap
       (<["protocolVersion" := VString "2024-11-05"]>
       (<["capabilities" := VMap ∅]>
       (<["clientInfo" := VMap
            (<["name" := VString "interactive-client"]>
            {["version" := VString "1.0.0"]})]> ∅)))]> ∅))).

Definition listToolsRequest : gmap string Value :=
  <["jsonrpc" := VString "2.0"]>
  (<["id" := VInt 2]>
  (<["method" := VString "tools/list"]> ∅)).

Definition toolRequest (name : string) (arguments : option (gmap string Value))
  : gmap string Value :=
  <["jsonrpc" := VString "2.0"]>
  (<["id" := VInt 3]>
  (<["method" := VString "tools/call"]>
  (<["params" := VMap
       (<["name" := VString name]>
       {["arguments" := map_value arguments]})]> ∅))).

(** The first entry of [contentArray] that is an object with a string
    under [text]. *)
Fixpoint first_text (contentArray : list Value) : option string :=
  match contentArray with
  | [] => None
  | VMap contentMap :: rest =>
      match contentMap !! "text" with
      | Some (VString text) => Some text
      | _ => first_text rest
      end
  | _ :: rest => first_text rest
  end.

Definition extractContentFromResponse (response : string) : string :=
  match json.Unmarshal_map response with
  | Ok result =>
      match get result "result" with
      | Some (VMap resultObj) =>
          match resultObj !! "content" with
          | Some (VSlice contentArray) =>
              match first_text contentArray with
              | Some text => text
              | None => response
              end
          | _ => response
          end
      | _ => response
      end
  | _ => response
  end.

Definition parseStructuredResponse (response : string)
  : Result (option (gmap string Value)) :=
  let content := extractContentFromResponse response in
  match json.Unmarshal_map content with
  | Ok structuredData => Ok structuredData
  | _ =>
      Ok (Some (<["success" := VBool true]> {["message" := VString content]}))
  end.

(** [ListTools]' loop over [tools]: entries that are not objects are
    skipped, missing fields are left at their zero values. *)
Definition openaiTool (tool : Value) : option Tool :=
  match tool with
  | VMap toolMap =>
      Some {| Function_Name :=
                match toolMap !! "name" with Some (VString n) => n | _ => "" end;
              Function_Description :=
                match toolMap !! "description" with Some (VString d) => d | _ => "" end;
              Function_Parameters :=
                match toolMap !! "inputSchema" with Some (VMap m) => Some m | _ => None end |}
  | _ => None
  end.

Section Session.
Context {ChildState : Type}.

(** The child process: from its state and the request line written
    to its input, its next state and what the exchange gives. *)
Variable child : ChildState -> string -> ChildState * exchange.

(** [fmt.Fprintf(s.stdin, "%s\n", reqBytes)] then [s.scanner.Scan()]. *)
Definition send (s : MCPServer ChildState) (reqBytes : string)
  : MCPServer ChildState * exchange :=
  let '(c, x) := child (cmd s) reqBytes in
  match x with
  | BrokenPipe => ({| cmd := c; stdin := stdin s |}, x)
  | _ => ({| cmd := c; stdin := stdin s ++ [reqBytes] |}, x)
  end.

Definition Initialize (s : MCPServer ChildState)
  : MCPServer ChildState * Result (list output) :=
  let reqBytes := json.Marshal_string (VMap initRequest) in
  let '(s', x) := send s reqBytes in
  (s', match x with
       | BrokenPipe => Err (ErrorfV "failed to send initialization request" WriteError)
       | EndOfStream => Err (Errorf "failed to initialize server")
       | Reply responseText =>
           match json.Unmarshal_map responseText with
           | Ok response =>
               match get response "result" with
               | Some (VMap result) =>
                   match result !! "serverInfo" with
                   | Some (VMap serverInfo) =>
                       Ok [PrintConnected (serverInfo !! "name") (serverInfo !! "version")]
                   | _ => Ok []
                   end
               | _ => Ok []
               end
           | Err e => Err (ErrorfV "failed to parse initialization response" e)
           | Panic => Panic
           end
       end).

Definition ListTools (s : MCPServer ChildState)
  : MCPServer ChildState * Result (list Tool) :=
  let reqBytes := json.Marshal_string (VMap listToolsRequest) in
  let '(s', x) := send s reqBytes in
  (s', match x with
       | BrokenPipe => Err (ErrorfV "failed to send tools list request" WriteError)
       | EndOfStream => Err (Errorf "failed to get tools list")
       | Reply responseText =>
           match json.Unmarshal_map responseText with
           | Ok response =>
               match get response "result" with
               | Some (VMap result) =>
                   match result !! "tools" with
                   | Some (VSlice tools) => Ok (omap openaiTool tools)
                   | _ => Err (Errorf "invalid tools format - tools field not found or not an array")
                   end
               | _ => Err (Errorf "invalid response format - no result field")
               end
           | Err e => Err (ErrorfV "failed to parse tools list response" e)
           | Panic => Panic
           end
       end).

Definition CallTool (s : MCPServer ChildState) (name : string)
    (arguments : option (gmap string Value))
  : MCPServer ChildState * Result string :=
  let reqBytes := json.Marshal_string (VMap (toolRequest name arguments)) in
  let '(s', x) := send s reqBytes in
  (s', match x with
       | BrokenPipe => Err (ErrorfV "failed to send tool call request" WriteError)
       | EndOfStream => Err (Errorf "failed to get response")
       | Reply line => Ok line
       end).

(** The state of [main]'s loop over [message.ToolCalls]. *)
Record turn : Type := {
  server : MCPServer ChildState;
  lastResult : string;
  lastStructuredResult : option (gmap string Value);
  stdout : list output
}.

Definition print (t : turn) (o : output) : turn :=
  {| server := server t; lastResult := lastResult t;
     lastStructuredResult := lastStructuredResult t;
     stdout := stdout t ++ [o] |}.

(** The price the call is to use: the [total_price] of the previous
    structured result, for [apply_discount] only and when that field
    is a float64. *)
Definition previous_total_price (name : string)
    (lastStructuredResult : option (gmap string Value)) : option float :=
  if String.eqb name "apply_discount" then
    match lastStructuredResult with
    | Some last =>
        match last !! "total_price" with
        | Some (VFloat price) => Some price
        | _ => None
        end
    | None => None
    end
  else None.

(** [arguments["total_price"] = price]; a write to a nil map
    panics. *)
Definition set_total_price (arguments : option (gmap string Value)) (price : float)
  : Result (option (gmap string Value)) :=
  match arguments with
  | Some a => Ok (Some (<["total_price" := VFloat price]> a))
  | None => Panic
  end.

(** The end of the loop body, once the reply is decoded. *)
Definition record_result (t : turn) (s : MCPServer ChildState)
    (structuredResult : option (gmap string Value)) : Result turn :=
  let t1 := {| server := s; lastResult := lastResult t;
               lastStructuredResult := structuredResult;
               stdout := stdout t |} in
  let shown :=
    match get structuredResult "message" with
    | Some (VString message) =>
        Ok (print {| server := s; lastResult := message;
                     lastStructuredResult := structuredResult;
                     stdout := stdout t |} (PrintMessage message))
    | Some _ => Panic
    | None => Ok t1
    end in
  match shown with
  | Ok t2 =>
      match get structuredResult "success" with
      | Some (VBool true) => Ok (print t2 (PrintStructured structuredResult))
      | Some (VBool false) => Ok t2
      | Some _ => Panic
      | None => Ok t2
      end
  | other => other
  end.

(** The body of the loop for one tool call. *)
Definition toolCall_step (t : turn) (toolCall : ToolCall) : Result turn :=
  match json.Unmarshal_map (Call_Arguments toolCall) with
  | Ok arguments =>
      let prepared :=
        match previous_total_price (Call_Name toolCall) (lastStructuredResult t) with
        | Some price =>
            match set_total_price arguments price with
            | Ok a => Ok (a, print t (PrintAutoTotalPrice price))
            | Err e => Err e
            | Panic => Panic
            end
        | None => Ok (arguments, t)
        end in
      match prepared with
      | Ok (arguments', t1) =>
          match CallTool (server t1) (Call_Name toolCall) arguments' with
          | (s', Ok response) =>
              match parseStructuredResponse response with
              | Ok structuredResult => record_result t1 s' structuredResult
              | Err e =>
                  Ok (print {| server := s'; lastResult := lastResult t1;
                               lastStructuredResult := lastStructuredResult t1;
                               stdout := stdout t1 |} (PrintErrorParsingStructured e))
              | Panic => Panic
              end
          | (s', Err e) =>
              Ok (print {| server := s'; lastResult := lastResult t1;
                           lastStructuredResult := lastStructuredResult t1;
                           stdout := stdout t1 |} (PrintErrorCallingTool e))
          | (_, Panic) => Panic
          end
      | Err e => Err e
      | Panic => Panic
      end
  | Err e => Ok (print t (PrintErrorParsingArguments e))
  | Panic => Panic
  end.

(** [for _, toolCall := range message.ToolCalls { ... }], from a
    fresh [lastResult] and [lastStructuredResult]. *)
Fixpoint toolCalls_from (t : turn) (toolCalls : list ToolCall) : Result turn :=
  match toolCalls with
  | [] => Ok t
  | toolCall :: rest =>
      match toolCall_step t toolCall with
      | Ok t' => toolCalls_from t' rest
      | other => other
      end
  end.

Definition toolCalls (s : MCPServer ChildState) (calls : list ToolCall) : Result turn :=
  toolCalls_from {| server := s; lastResult := ""; lastStructuredResult := None;
                    stdout := [] |} calls.

End Session.

(** [NewMCPServer]: the child just started, nothing written yet. *)
Definition NewMCPServer {ChildState : Type} (c : ChildState) : MCPServer ChildState :=
  {| cmd := c; stdin := [] |}.

(** The child that runs [cmd/server/main.go]. *)
Definition product_server (st : unit) (line : string) : unit * exchange :=
  (st, serve CmdServer.tools line).

(** What is read off a finished loop: the request lines written to the
    child, a field of the last structured result, the last message. *)
Definition requests {ChildState} (r : Result (@turn ChildState)) : list string :=
  match r with
  | Ok t => stdin (server t)
  | _ => []
  end.

Definition structured {ChildState} (r : Result (@turn ChildState)) (k : string)
  : option Value :=
  match r with
  | Ok t => get (lastStructuredResult t) k
  | _ => None
  end.

Definition message {ChildState} (r : Result (@turn ChildState)) : option string :=
  match r with
  | Ok t => Some (lastResult t)
  | _ => None
  end.

(** The chaining scenario: the total of five laptops and thirty
    smartphones, then a discount with no [total_price] of its own. *)
Definition calculate_call : ToolCall :=
  {| Call_Name := "calculate_total";
     Call_Arguments :=
       dq "{'items':[{'product_id':'1','quantity':5},{'product_id':'2','quantity':30}]}" |}.

Definition discount_call : ToolCall :=
  {| Call_Name := "apply_discount";
     Call_Arguments := dq "{'discount_percentage':30}" |}.

End Client.

(** * Notions used in the statements *)

(** The record [parseStructuredResponse] makes of text that is not
    JSON. *)
Definition plain_message (content : string) : gmap string Value :=
  <["success" := VBool true]> {["message" := VString content]}.

(** A plain-text reply of a tool, as the runtime wraps it. *)
Definition not_found_reply : string :=
  Runtime.response (VInt 3) "result"
    (Runtime.result_value (LegacyServer.text_result true "Product not found")).

(** A reply cut off in the middle of the envelope. *)
Definition truncated_line : string := dq "{'jsonrpc':'2.0','id':3,'resu".

(** A child that answers every request with the same line. *)
Definition parrot (line : string) (st : unit) (_ : string) : unit * Runtime.exchange :=
  (st, Runtime.Reply line).

(** What the client does with its connection, and the connection after a
    sequence of such operations. *)
Inductive operation : Type :=
| DoInitialize
| DoListTools
| DoCallTool (name : string) (arguments : option (gmap string Value)).

Definition perform {ChildState : Type}
    (child : ChildState -> string -> ChildState * Runtime.exchange)
    (s : MCPServer ChildState) (o : operation) : MCPServer ChildState :=
  match o with
  | DoInitialize => fst (Client.Initialize child s)
  | DoListTools => fst (Client.ListTools child s)
  | DoCallTool name arguments => fst (Client.CallTool child s name arguments)
  end.

Definition session {ChildState : Type}
    (child : ChildState -> string -> ChildState * Runtime.exchange)
    (c : ChildState) (ops : list operation) : MCPServer ChildState :=
  fold_left (perform child) ops (Client.NewMCPServer c).

(** The id that goes with a method. *)
Definition method_id (method : string) : option Z :=
  if String.eqb method "initialize" then Some 1
  else if String.eqb method "tools/list" then Some 2
  else if String.eqb method "tools/call" then Some 3
  else None.

(** A line that is the encoding of a request with the id of its
    method. *)
Definition fixed_id_line (line : string) : Prop :=
  exists (req : gmap string Value) (method : string) (n : Z),
    line = json.Marshal_string (VMap req)
    /\ req !! "method" = Some (VString method)
    /\ method_id method = Some n
    /\ req !! "id" = Some (VInt n).

(** The price [cmd/server/main.go] computes. *)
Definition retained_price (totalPrice discountPercentage : float) : float :=
  (totalPrice * (discountPercentage / 100))%float.

Definition variants_differ (n k : Z) : bool :=
  Float64.neq (LegacyServer.discountedPrice (Float64.of_int n) (Float64.of_int k))
              (retained_price (Float64.of_int n) (Float64.of_int k)).

(** What the handler's checks and conversions give on the float64 of a
    whole number [n]. *)
Definition quantity_accepted (n : Z) : bool :=
  (Float64.to_int (Float64.of_int n) =? n)
  && negb (Float64.neq (Float64.of_int n) (Float64.of_int n))
  && negb (Float64.le (Float64.of_int n) 0)
  && negb (Float64.gt (Float64.of_int n) 1000).

(** An entry of [items]: an object whose [product_id] is the id of the
    catalog product [p] and whose [quantity] is the whole number [n]
    between 1 and 1000. *)
Definition valid_entry (e : gmap string Value * Product * Z) : Prop :=
  let '(item, p, n) := e in
  In p CmdServer.defaultProducts
  /\ item !! "product_id" = Some (VString (ID p))
  /\ item !! "quantity" = Some (VFloat (Float64.of_int n))
  /\ 1 <= n <= 1000.

Definition entry_value (e : gmap string Value * Product * Z) : Value :=
  VMap (fst (fst e)).

(** The sum of price times quantity over the entries, in float64, in the
    order of the list. *)
Definition sum_price_quantity (entries : list (gmap string Value * Product * Z))
    (start : float) : float :=
  fold_left (fun acc e => (acc + Price (snd (fst e)) * Float64.of_int (snd e))%float)
            entries start.

Definition five_laptops_thirty_phones : list (gmap string Value * Product * Z) := [
  (<["product_id" := VString "1"]> {["quantity" := VFloat 5]},
   {| ID := "1"; Name := "Laptop"; Price := 1000 |}, 5);
  (<["product_id" := VString "2"]> {["quantity" := VFloat 30]},
   {| ID := "2"; Name := "Smartphone"; Price := 500 |}, 30)
].

(** A float64 that is a whole number: a zero, or a finite value
    [m * 2^e] with no fractional bit. *)
Definition is_whole (q : float) : bool :=
  match Prim2SF q with
  | S754_zero _ => true
  | S754_finite _ m e => (0 <=? e) || (Z.pos m mod 2 ^ (- e) =? 0)
  | _ => false
  end.

(** A quantity outside what [calculate_total] takes: zero, above 1000,
    or not a whole number. *)
Definition refused_quantity (q : float) : Prop :=
  (q =? 0)%float = true \/ (1000 <? q)%float = true \/ is_whole q = false.

(** The arguments with one entry: product [p], quantity [n]. *)
Definition single_item (p : Product) (n : Z) : gmap string Value :=
  {["items" := VSlice [VMap (<["product_id" := VString (ID p)]>
                            {["quantity" := VFloat (Float64.of_int n)]})]]}.

Definition two_and_a_half : gmap string Value :=
  <["product_id" := VString "1"]> {["quantity" := VFloat 2.5]}.

(** An entry the handler accepted: an object with the id of a catalog
    product and a float64 quantity that is a whole number, not zero or
    less, not above 1000. *)
Definition accepted_entry (v : Value) : Prop :=
  exists (item : gmap string Value) (productID : string) (p : Product) (q : float),
    v = VMap item
    /\ item !! "product_id" = Some (VString productID)
    /\ lookup_product CmdServer.defaultProducts productID = Some p
    /\ item !! "quantity" = Some (VFloat q)
    /\ is_whole q = true
    /\ (q <=? 0)%float = false
    /\ (1000 <? q)%float = false.

Definition tablet : Product := {| ID := "3"; Name := "Tablet"; Price := 300 |}.

(** The request line of a tool call. *)
Definition request_line (name : string) (arguments : option (gmap string Value)) : string :=
  json.Marshal_string (VMap (Client.toolRequest name arguments)).

(** The turn after the total of the chaining scenario, and a discount
    call that brings a [total_price] of its own. *)
Definition after_total : Result (@Client.turn unit) :=
  Client.toolCalls Client.product_server (Client.NewMCPServer tt) [Client.calculate_call].

Definition turn_of (r : Result (@Client.turn unit)) : @Client.turn unit :=
  match r with
  | Ok t => t
  | _ => {| Client.server := Client.NewMCPServer tt; Client.lastResult := "";
            Client.lastStructuredResult := None; Client.stdout := [] |}
  end.

(** The structured result of the total, as the client decoded it. *)
Definition total_result : gmap string Value :=
  match Client.lastStructuredResult (turn_of after_total) with
  | Some m => m
  | None => ∅
  end.

Definition own_price_text : string := dq "{'total_price':999,'discount_percentage':30}".

Definition own_price_arguments : gmap string Value :=
  <["total_price" := VFloat 999]> {["discount_percentage" := VFloat 30]}.

(** A child whose output has ended. *)
Definition silent (st : unit) (_ : string) : unit * Runtime.exchange :=
  (st, Runtime.EndOfStream).

(** A reply whose content text is an object with a number as message. *)
Definition numeric_message_reply : string :=
  Runtime.response (VInt 3) "result"
    (Runtime.result_value
       {| IsError := false; Content := [NewTextContent (dq "{'message':5}")] |}).

(** The reply of a server that refuses the handshake. *)
Definition refusal_line : string :=
  dq "{'jsonrpc':'2.0','id':1,'error':{'code':-32600,'message':'unsupported'}}".

#[local] Set Warnings "-inexact-float".

(** * Sanity checks *)

Example to_int_trunc : Float64.to_int 2.5%float = 2 /\ Float64.to_int (-2.5)%float = -2.
Proof. vm_compute. split; reflexivity. Qed.

Example to_int_huge : Float64.to_int 1e30%float = Float64.minInt64.
Proof. vm_compute. reflexivity. Qed.

Example of_int_1000 : Float64.of_int 1000 = 1000%float.
Proof. vm_compute. reflexivity. Qed.

Example fmt_2f_samples :
  Float64.fmt_2f 1000%float = "1000.00" /\
  Float64.fmt_2f 0.125%float = "0.12" /\
  Float64.fmt_2f 0.375%float = "0.38" /\
  Float64.fmt_2f 2.675%float = "2.67" /\
  Float64.fmt_2f (-0.004)%float = "-0.00" /\
  Float64.fmt_2f 1599.999%float = "1600.00".
Proof. vm_compute. repeat split; reflexivity. Qed.

Example fmt_0f_samples :
  Float64.fmt_0f 30%float = "30" /\ Float64.fmt_0f 0.5%float = "0" /\
  Float64.fmt_0f 1.5%float = "2" /\ Float64.fmt_0f 80%float = "80".
Proof. vm_compute. repeat split; reflexivity. Qed.

Example encode_float_samples :
  json.encode_float 20000%float = Some "20000" /\
  json.encode_float 2.5%float = Some "2.5" /\
  json.encode_float 0x1.999999999999ap-4%float = Some "0.1" /\
  json.encode_float (3 * (10 / 100))%float = Some "0.30000000000000004" /\
  json.encode_float 0x1.b1ae4d6e2ef5p+69%float = Some "1e+21" /\
  json.encode_float 0x1.0c6f7a0b5ed8dp-20%float = Some "0.000001" /\
  json.encode_float 0x1.ad7f29abcaf48p-24%float = Some "1e-7" /\
  json.encode_float 0x0.0000000000001p-1022%float = Some "5e-324" /\
  json.encode_float 0x1.fffffffffffffp+1023%float = Some "1.7976931348623157e+308" /\
  json.encode_float (-1600)%float = Some "-1600" /\
  json.encode_float 0x1p+53%float = Some "9007199254740992" /\
  json.encode_float 0x1.52d02c7e14af6p+76%float = Some "1e+23" /\
  json.encode_float 0x1.ac53a7e04bcdap+66%float = Some "123456789012345680000" /\
  json.encode_float 0x1.0f0cf064dd592p+73%float = Some "1e+22" /\
  json.encode_float 0x1.1666666666666p+2%float = Some "4.35" /\
  json.encode_float 0x1.01f31f46ed246p-13%float = Some "0.000123" /\
  json.encode_float 0x1p-1022%float = Some "2.2250738585072014e-308" /\
  json.encode_float 0x1.34a456d5cfaadp+10%float = Some "1234.5678" /\
  json.encode_float infinity = None.
Proof. vm_compute. repeat split; reflexivity. Qed.

Example Marshal_record :
  json.Marshal (VMap (<["success" := VBool true]>
                     (<["message" := VString (dq "a 'b' <c>")]>
                     (<["items" := VSlice [VInt 1; VNil; VNilSlice]]> ∅))))
  = Some (dq "{'items':[1,null,null],'message':'a \'b\' \u003cc\u003e','success':true}").
Proof. vm_compute. reflexivity. Qed.

Example decode_samples :
  json.decode (dq "{'a': [1, 2.5, -3e2], 'b': {'c': null, 'd': 'x\'yé\n'}, 'a': true} ")
  = Some (VMap (<["a" := VBool true]>
               (<["b" := VMap (<["c" := VNil]>
                              (<["d" := VString (dq "x'y" +:+ String (ascii_of_nat 195)
                                    (String (ascii_of_nat 169) (String (ascii_of_nat 10) "")))]> ∅))]> ∅))) /\
  json.decode "[]" = Some (VSlice []) /\
  json.decode " 12 " = Some (VFloat 12) /\
  json.decode "0.1" = Some (VFloat 0x1.999999999999ap-4) /\
  json.decode "1e23" = Some (VFloat 0x1.52d02c7e14af6p+76) /\
  json.decode "4.35" = Some (VFloat 0x1.1666666666666p+2) /\
  json.decode "5e-324" = Some (VFloat 0x0.0000000000001p-1022) /\
  json.decode "2e-324" = Some (VFloat 0) /\
  json.decode "1.7976931348623157e308" = Some (VFloat 0x1.fffffffffffffp+1023) /\
  json.decode "9007199254740993" = Some (VFloat 0x1p+53) /\
  json.decode "-0" = Some (VFloat (-0)).
Proof. vm_compute. repeat split; reflexivity. Qed.

Example decode_rejects :
  map json.decode
    [""; "{"; dq "{'id':3,'resu"; "01"; "1."; "-"; "1e"; "tru"; "True"; "[1,]"; "[1 2]";
     dq "{'a'}"; dq "{'a':1,}"; "1 2"; "]"; dq "'abc"; dq "'\x'"; dq "'\u12'"; "1e400"; "nul"; "{1:2}";
     "Total price is $20000.00"]
  = repeat None 22.
Proof. vm_compute. reflexivity. Qed.

Example getPrice_known :
  CmdServer.getPriceHandler (Some {["product_id" := VString "2"]})
  = Ok {| IsError := false; Content := [NewTextContent (dq
      "{'message':'The price of Smartphone is $500.00','price':500,'product_id':'2','product_name':'Smartphone','success':true}")] |}.
Proof. vm_compute. reflexivity. Qed.

Example calculateTotal_sample :
  CmdServer.calculateTotalHandler
    (Some {["items" := VSlice [VMap (<["product_id" := VString "1"]> {["quantity" := VFloat 2]})]]})
  = Ok {| IsError := false; Content := [NewTextContent (dq
      "{'item_count':1,'items':[{'item_total':2000,'price':1000,'product_id':'1','product_name':'Laptop','quantity':2}],'message':'Total price is $2000.00','success':true,'total_price':2000}")] |}.
Proof. vm_compute. reflexivity. Qed.

Example applyDiscount_sample :
  CmdServer.applyDiscountHandler
    (Some (<["total_price" := VFloat 2000]> {["discount_percentage" := VFloat 80]}))
  = Ok {| IsError := false; Content := [NewTextContent (dq
      "{'discount_percentage':80,'discounted_price':1600,'message':'Original price: $2000.00, After 80% discount: $1600.00 (You save: $400.00)','original_price':2000,'saved_amount':400,'success':true}")] |}.
Proof. vm_compute. reflexivity. Qed.

Example legacy_applyDiscount_sample :
  LegacyServer.applyDiscountHandler
    (Some (<["total_price" := VFloat 2000]> {["discount_percentage" := VFloat 80]}))
  = Ok {| IsError := false; Content := [NewTextContent "Discounted price is $400.00"] |}.
Proof. vm_compute. reflexivity. Qed.

(** * The handlers of cmd/server/main.go *)

Section GetPrice.
Import CmdServer.

Lemma lookup_product_none products id :
  Forall (fun p => ID p <> id) products -> lookup_product products id = None.
Proof.
  unfold lookup_product. induction 1 as [|p l Hp _ IH]; simpl; [reflexivity|].
  destruct (String.eqb_spec (ID p) id); [contradiction|exact IH].
Qed.

(** The text of the error payload for the id 9. *)
Example getPrice_errorResult_text :
json.Marshal_string (VMap (getPrice_errorResult "9"))
= dq "{'error':'Product not found','product_id':'9','success':false}".
Proof. vm_compute. reflexivity. Qed.

End GetPrice.

(** C8. For every product id that matches no product of the catalog,
    [get_price] returns a result with [isError = true] whose payload has
    [success = false] and carries the id under [product_id]. *)
Theorem getPrice_unknown_id (args : gmap string Value) (productID : string) :
  args !! "product_id" = Some (VString productID) ->
  Forall (fun p => ID p <> productID) CmdServer.defaultProducts ->
  CmdServer.getPriceHandler (Some args)
  = Ok {| IsError := true;
          Content := [NewTextContent
            (json.Marshal_string (VMap (CmdServer.getPrice_errorResult productID)))] |}
  /\ CmdServer.getPrice_errorResult productID !! "success" = Some (VBool false)
  /\ CmdServer.getPrice_errorResult productID !! "product_id" = Some (VString productID).
Proof.
  intros Hid Hnone. split; [|split; reflexivity].
  unfold CmdServer.getPriceHandler. rewrite Hid.
  rewrite (lookup_product_none _ _ Hnone). reflexivity.
Qed.

Lemma getPrice_unknown_id_witness :
  CmdServer.getPriceHandler (Some {["product_id" := VString "9"]})
  = Ok {| IsError := true;
          Content := [NewTextContent
            (json.Marshal_string (VMap (CmdServer.getPrice_errorResult "9")))] |}
  /\ CmdServer.getPrice_errorResult "9" !! "success" = Some (VBool false)
  /\ CmdServer.getPrice_errorResult "9" !! "product_id" = Some (VString "9").
Proof.
  apply (getPrice_unknown_id {["product_id" := VString "9"]} "9").
  - reflexivity.
  - repeat constructor; discriminate.
Defined.

(** C9. With [items] an empty array, [calculate_total] returns a result
    that is not an error: [success = true], [total_price = 0],
    [item_count = 0], and no item details ([items] is [null]). *)
Theorem calculateTotal_empty_items (rest : gmap string Value) :
  CmdServer.calculateTotalHandler (Some (<["items" := VSlice []]> rest))
  = Ok {| IsError := false;
          Content := [NewTextContent
            (json.Marshal_string (VMap (CmdServer.calculateTotal_result 0 [])))] |}
  /\ CmdServer.calculateTotal_result 0 [] !! "success" = Some (VBool true)
  /\ CmdServer.calculateTotal_result 0 [] !! "total_price" = Some (VFloat 0)
  /\ CmdServer.calculateTotal_result 0 [] !! "item_count" = Some (VInt 0)
  /\ CmdServer.calculateTotal_result 0 [] !! "items" = Some VNilSlice
  /\ json.Marshal_string (VMap (CmdServer.calculateTotal_result 0 []))
     = dq "{'item_count':0,'items':null,'message':'Total price is $0.00','success':true,'total_price':0}".
Proof.
  split; [|vm_compute; repeat split; reflexivity].
  unfold CmdServer.calculateTotalHandler. rewrite lookup_insert_eq. reflexivity.
Qed.

(** C2. For every [total_price] and [discount_percentage], the
    [apply_discount] handler of cmd/server/main.go returns the record with
    [discounted_price = total_price * (discount_percentage / 100)] and
    [saved_amount = total_price - discounted_price], in float64
    arithmetic: the percentage is the part of the price still paid. For
    2000 and 80 the prices are 1600 and 400, shown as 1600.00 and
    400.00. *)
Theorem applyDiscount_retains_percentage
    (totalPrice retainPercentage : float) (rest : gmap string Value) :
  let discountedPrice := (totalPrice * (retainPercentage / 100))%float in
  let record := CmdServer.applyDiscount_result totalPrice retainPercentage in
  CmdServer.applyDiscountHandler
    (Some (<["total_price" := VFloat totalPrice]>
          (<["discount_percentage" := VFloat retainPercentage]> rest)))
  = Ok {| IsError := false;
          Content := [NewTextContent (json.Marshal_string (VMap record))] |}
  /\ record !! "discounted_price" = Some (VFloat discountedPrice)
  /\ record !! "saved_amount" = Some (VFloat (totalPrice - discountedPrice))
  /\ CmdServer.applyDiscount_result 2000 80 !! "discounted_price" = Some (VFloat 1600)
  /\ CmdServer.applyDiscount_result 2000 80 !! "saved_amount" = Some (VFloat 400)
  /\ json.Marshal_string (VMap (CmdServer.applyDiscount_result 2000 80))
     = dq "{'discount_percentage':80,'discounted_price':1600,'message':'Original price: $2000.00, After 80% discount: $1600.00 (You save: $400.00)','original_price':2000,'saved_amount':400,'success':true}".
Proof.
  cbv zeta. split.
  - unfold CmdServer.applyDiscountHandler.
    rewrite lookup_insert_eq, lookup_insert_ne, lookup_insert_eq by discriminate.
    reflexivity.
  - repeat split; try reflexivity; vm_compute; reflexivity.
Qed.

(** * The client *)

(** The propagation rule of the loop, for any child and any state: an
    [apply_discount] call made after a structured result with a float64
    [total_price] is sent with that price as its [total_price], whatever
    its own arguments said. *)
Lemma toolCall_step_propagates {ChildState : Type}
    (child : ChildState -> string -> ChildState * Runtime.exchange)
    (t : Client.turn) (last arguments : gmap string Value) (text : string) (price : float) :
  Client.lastStructuredResult t = Some last ->
  last !! "total_price" = Some (VFloat price) ->
  json.Unmarshal_map text = Ok (Some arguments) ->
  forall t', Client.toolCall_step child t {| Call_Name := "apply_discount"; Call_Arguments := text |} = Ok t' ->
  fst (child (cmd (Client.server t))
         (json.Marshal_string (VMap (Client.toolRequest "apply_discount"
            (Some (<["total_price" := VFloat price]> arguments))))))
  = cmd (Client.server t').
Proof.
  intros Hlast Hprice Hargs t'. unfold Client.toolCall_step. simpl Call_Arguments.
  rewrite Hargs. simpl Call_Name. unfold Client.previous_total_price. simpl String.eqb.
  rewrite Hlast, Hprice. simpl Client.set_total_price.
  unfold Client.CallTool, Client.send. simpl Client.server.
  destruct (child _ _) as [c x] eqn:Hc. simpl.
  destruct x; simpl.
  - intros [= <-]. reflexivity.
  - intros [= <-]. reflexivity.
  - destruct (Client.parseStructuredResponse line) as [sr|e|]; try discriminate.
    + unfold Client.record_result.
      destruct (Client.get sr "message") as [[]|]; try discriminate;
        destruct (Client.get sr "success") as [[|[]| | | | | |]|]; try discriminate;
        intros [= <-]; reflexivity.
    + intros [= <-]. reflexivity.
Qed.

(** C1. In a turn made of [calculate_total] on five of product 1 and
    thirty of product 2, then [apply_discount] with
    [discount_percentage = 30] and no [total_price], the first structured
    result has [total_price = 20000], the second request is sent with
    [total_price] set to that 20000, and the resulting
    [discounted_price] is 6000, shown as 6000.00. *)
Theorem chain_total_price_into_discount :
  let first := Client.toolCalls Client.product_server (Client.NewMCPServer tt)
                 [Client.calculate_call] in
  let both := Client.toolCalls Client.product_server (Client.NewMCPServer tt)
                 [Client.calculate_call; Client.discount_call] in
  json.Unmarshal_map (Call_Arguments Client.discount_call)
  = Ok (Some {["discount_percentage" := VFloat 30]})
  /\ Client.structured first "total_price" = Some (VFloat 20000)
  /\ Client.requests both
     = (Client.requests first ++
        [json.Marshal_string
           (VMap (Client.toolRequest "apply_discount"
              (Some (<["total_price" := VFloat 20000]>
                    {["discount_percentage" := VFloat 30]}))))])%list
  /\ Client.structured both "discounted_price" = Some (VFloat 6000)
  /\ Client.message both
     = Some "Original price: $20000.00, After 30% discount: $6000.00 (You save: $14000.00)".
Proof. vm_compute. repeat split; reflexivity. Qed.

(** Text that is not JSON does not decode into a map. *)
Lemma Unmarshal_map_invalid (s : string) :
  json.Valid s = false -> json.Unmarshal_map s = Err SyntaxError.
Proof.
  unfold json.Valid, json.Unmarshal_map.
  destruct (json.decode s); [discriminate|reflexivity].
Qed.


Lemma plain_message_message content :
  plain_message content !! "message" = Some (VString content).
Proof.
  unfold plain_message. rewrite lookup_insert_ne by discriminate.
  apply lookup_singleton_eq.
Qed.

Lemma plain_message_success content :
  plain_message content !! "success" = Some (VBool true).
Proof. unfold plain_message. apply lookup_insert_eq. Qed.

(** C6. When the content text unwrapped from a reply is not valid JSON,
    [parseStructuredResponse] returns, with no error, the record
    [{success: true, message: <that text>}], and the loop body goes on
    with it without a panic: the text becomes the last message. *)
Theorem parseStructuredResponse_not_json {ChildState : Type} (response : string)
    (t : @Client.turn ChildState) (s : MCPServer ChildState) :
  let content := Client.extractContentFromResponse response in
  json.Valid content = false ->
  Client.parseStructuredResponse response = Ok (Some (plain_message content))
  /\ Client.record_result t s (Some (plain_message content))
     = Ok {| Client.server := s;
             Client.lastResult := content;
             Client.lastStructuredResult := Some (plain_message content);
             Client.stdout := (Client.stdout t ++
               [PrintMessage content; PrintStructured (Some (plain_message content))])%list |}.
Proof.
  cbv zeta. intros Hbad. split.
  - unfold Client.parseStructuredResponse.
    rewrite (Unmarshal_map_invalid _ Hbad). reflexivity.
  - unfold Client.record_result, Client.print, Client.get.
    rewrite plain_message_message, plain_message_success. simpl.
    rewrite <- app_assoc. reflexivity.
Qed.


Lemma parseStructuredResponse_not_json_witness :
  Client.parseStructuredResponse not_found_reply
  = Ok (Some (plain_message "Product not found"))
  /\ Client.record_result
       {| Client.server := Client.NewMCPServer tt; Client.lastResult := "";
          Client.lastStructuredResult := None; Client.stdout := [] |}
       (Client.NewMCPServer tt) (Some (plain_message "Product not found"))
     = Ok {| Client.server := Client.NewMCPServer tt;
             Client.lastResult := "Product not found";
             Client.lastStructuredResult := Some (plain_message "Product not found");
             Client.stdout :=
               [PrintMessage "Product not found";
                PrintStructured (Some (plain_message "Product not found"))] |}.
Proof.
  apply (parseStructuredResponse_not_json not_found_reply
           {| Client.server := Client.NewMCPServer tt; Client.lastResult := "";
              Client.lastStructuredResult := None; Client.stdout := [] |}
           (Client.NewMCPServer tt)).
  vm_compute. reflexivity.
Defined.

(** A line that is not JSON is its own content. *)
Lemma extractContentFromResponse_invalid (line : string) :
  json.Valid line = false -> Client.extractContentFromResponse line = line.
Proof.
  intros Hbad. unfold Client.extractContentFromResponse.
  rewrite (Unmarshal_map_invalid _ Hbad). reflexivity.
Qed.


(** C7, as stated, fails: a malformed line is not reported to the caller
    of [parseStructuredResponse] as an error. *)
Lemma malformed_line_reports_no_fault :
  ~ (forall line : string,
       json.Valid line = false ->
       exists e, Client.parseStructuredResponse line = Err e).
Proof.
  intros H. destruct (H truncated_line) as [e He].
  - vm_compute. reflexivity.
  - vm_compute in He. discriminate He.
Qed.

(** C7, amended. A malformed reply line is decoded without a panic. As
    the reply to a tool call it comes back with no error, as the record
    [{success: true, message: <the raw line>}]: the raw text is kept, as
    the message. As the reply to [initialize] or [tools/list] it comes
    back as an error that wraps the JSON syntax error. *)
Theorem malformed_line_decoded {ChildState : Type}
    (child : ChildState -> string -> ChildState * Runtime.exchange)
    (s : MCPServer ChildState) (line : string) :
  json.Valid line = false ->
  Client.parseStructuredResponse line = Ok (Some (plain_message line))
  /\ (forall c,
        child (cmd s) (json.Marshal_string (VMap Client.initRequest))
        = (c, Runtime.Reply line) ->
        snd (Client.Initialize child s)
        = Err (ErrorfV "failed to parse initialization response" SyntaxError))
  /\ (forall c,
        child (cmd s) (json.Marshal_string (VMap Client.listToolsRequest))
        = (c, Runtime.Reply line) ->
        snd (Client.ListTools child s)
        = Err (ErrorfV "failed to parse tools list response" SyntaxError)).
Proof.
  intros Hbad. split; [|split].
  - unfold Client.parseStructuredResponse.
    rewrite (extractContentFromResponse_invalid _ Hbad).
    rewrite (Unmarshal_map_invalid _ Hbad). reflexivity.
  - intros c Hc. unfold Client.Initialize, Client.send. rewrite Hc. simpl.
    rewrite (Unmarshal_map_invalid _ Hbad). reflexivity.
  - intros c Hc. unfold Client.ListTools, Client.send. rewrite Hc. simpl.
    rewrite (Unmarshal_map_invalid _ Hbad). reflexivity.
Qed.


Lemma malformed_line_decoded_witness :
  Client.parseStructuredResponse truncated_line = Ok (Some (plain_message truncated_line))
  /\ snd (Client.Initialize (parrot truncated_line) (Client.NewMCPServer tt))
     = Err (ErrorfV "failed to parse initialization response" SyntaxError)
  /\ snd (Client.ListTools (parrot truncated_line) (Client.NewMCPServer tt))
     = Err (ErrorfV "failed to parse tools list response" SyntaxError).
Proof.
  destruct (malformed_line_decoded (parrot truncated_line) (Client.NewMCPServer tt)
              truncated_line) as (Hcall & Hinit & Hlist).
  - vm_compute. reflexivity.
  - split; [exact Hcall|]. split; [apply (Hinit tt)|apply (Hlist tt)]; reflexivity.
Defined.


Lemma initRequest_fixed_id :
  fixed_id_line (json.Marshal_string (VMap Client.initRequest)).
Proof. exists Client.initRequest, "initialize", 1. repeat split; reflexivity. Qed.

Lemma listToolsRequest_fixed_id :
  fixed_id_line (json.Marshal_string (VMap Client.listToolsRequest)).
Proof. exists Client.listToolsRequest, "tools/list", 2. repeat split; reflexivity. Qed.

Lemma toolRequest_fixed_id name arguments :
  fixed_id_line (json.Marshal_string (VMap (Client.toolRequest name arguments))).
Proof.
  exists (Client.toolRequest name arguments), "tools/call", 3. repeat split; reflexivity.
Qed.

Lemma send_stdin {ChildState : Type}
    (child : ChildState -> string -> ChildState * Runtime.exchange)
    (s : MCPServer ChildState) (reqBytes : string) :
  stdin (fst (Client.send child s reqBytes)) = stdin s
  \/ stdin (fst (Client.send child s reqBytes)) = (stdin s ++ [reqBytes])%list.
Proof.
  unfold Client.send. destruct (child (cmd s) reqBytes) as [c x].
  destruct x; simpl; auto.
Qed.

Lemma perform_fixed_id {ChildState : Type}
    (child : ChildState -> string -> ChildState * Runtime.exchange)
    (s : MCPServer ChildState) (o : operation) :
  Forall fixed_id_line (stdin s) -> Forall fixed_id_line (stdin (perform child s o)).
Proof.
  intros Hs.
  assert (Hsend : forall reqBytes, fixed_id_line reqBytes ->
            Forall fixed_id_line (stdin (fst (Client.send child s reqBytes)))).
  { intros reqBytes Hreq. destruct (send_stdin child s reqBytes) as [-> | ->];
      [exact Hs|]. apply Forall_app. split; [exact Hs|]. constructor; [exact Hreq|constructor]. }
  destruct o as [| |name arguments]; simpl.
  - unfold Client.Initialize.
    specialize (Hsend _ initRequest_fixed_id).
    destruct (Client.send child s _); exact Hsend.
  - unfold Client.ListTools.
    specialize (Hsend _ listToolsRequest_fixed_id).
    destruct (Client.send child s _); exact Hsend.
  - unfold Client.CallTool.
    specialize (Hsend _ (toolRequest_fixed_id name arguments)).
    destruct (Client.send child s _); exact Hsend.
Qed.

(** C10. The id of a request is fixed by its method and never counts
    up: whatever the child does and whatever the client does with its
    connection, every line written to the child is a request with id 1
    for [initialize], 2 for [tools/list] and 3 for [tools/call]. Two tool
    calls, whatever their names and arguments, carry the same id 3, so
    the id does not tell the requests of a session apart. *)
Theorem request_ids_fixed_by_method {ChildState : Type}
    (child : ChildState -> string -> ChildState * Runtime.exchange)
    (c : ChildState) (ops : list operation) :
  Forall fixed_id_line (stdin (session child c ops))
  /\ Client.initRequest !! "id" = Some (VInt 1)
  /\ Client.listToolsRequest !! "id" = Some (VInt 2)
  /\ (forall name1 arguments1 name2 arguments2,
        Client.toolRequest name1 arguments1 !! "id" = Some (VInt 3)
        /\ Client.toolRequest name2 arguments2 !! "id" = Some (VInt 3))
  /\ stdin (session Client.product_server tt
              [DoCallTool "get_price" (Some {["product_id" := VString "1"]});
               DoCallTool "get_price" (Some {["product_id" := VString "2"]})])
     = [dq "{'id':3,'jsonrpc':'2.0','method':'tools/call','params':{'arguments':{'product_id':'1'},'name':'get_price'}}";
        dq "{'id':3,'jsonrpc':'2.0','method':'tools/call','params':{'arguments':{'product_id':'2'},'name':'get_price'}}"].
Proof.
  split; [|repeat split; vm_compute; reflexivity].
  unfold session.
  assert (H : Forall fixed_id_line (stdin (Client.NewMCPServer c))) by constructor.
  revert H. generalize (Client.NewMCPServer c).
  induction ops as [|o ops IH]; intros s Hs; simpl; [exact Hs|].
  apply IH, perform_fixed_id, Hs.
Qed.

(** * The two variants of apply_discount *)

(** A check that holds on every integer of a range holds on each. *)
Lemma forallb_seqZ (f : Z -> bool) (lo len n : Z) :
  forallb f (seqZ lo len) = true -> lo <= n < lo + len -> f n = true.
Proof.
  intros Hall Hn. rewrite forallb_forall in Hall. apply Hall.
  apply list_elem_of_In, elem_of_seqZ. exact Hn.
Qed.


Lemma variants_differ_grid :
  forallb (fun n => forallb (fun k => (k =? 50) || variants_differ n k) (seqZ 0 101))
          (seqZ 1 1000) = true.
Proof. vm_compute. reflexivity. Qed.

(** C5. The two [apply_discount] handlers use opposite conventions. On
    the same arguments, server/server.go answers with
    [total_price - total_price * (discount_percentage / 100)] and
    cmd/server/main.go with [total_price * (discount_percentage / 100)],
    in float64 arithmetic. For 2000 and 80 that is 400 against 1600, and
    for every whole price from 1 to 1000 with a whole percentage from 0
    to 100 other than 50 the two prices differ. *)
Theorem discount_variants_differ (totalPrice discountPercentage : float)
    (rest : gmap string Value) :
  let args := Some (<["total_price" := VFloat totalPrice]>
                   (<["discount_percentage" := VFloat discountPercentage]> rest)) in
  LegacyServer.applyDiscountHandler args
  = Ok (LegacyServer.text_result false
          ("Discounted price is $" +:+
           Float64.fmt_2f (totalPrice - totalPrice * (discountPercentage / 100))%float))
  /\ CmdServer.applyDiscountHandler args
     = Ok {| IsError := false;
             Content := [NewTextContent (json.Marshal_string
               (VMap (CmdServer.applyDiscount_result totalPrice discountPercentage)))] |}
  /\ CmdServer.applyDiscount_result totalPrice discountPercentage !! "discounted_price"
     = Some (VFloat (totalPrice * (discountPercentage / 100))%float)
  /\ LegacyServer.discountedPrice 2000 80 = 400%float
  /\ retained_price 2000 80 = 1600%float
  /\ (forall n k : Z, 1 <= n <= 1000 -> 0 <= k <= 100 -> k <> 50 ->
        Float64.neq (LegacyServer.discountedPrice (Float64.of_int n) (Float64.of_int k))
                    (retained_price (Float64.of_int n) (Float64.of_int k)) = true).
Proof.
  cbv zeta. split; [|split; [|split; [|split; [|split]]]].
  - unfold LegacyServer.applyDiscountHandler.
    rewrite lookup_insert_eq, lookup_insert_ne, lookup_insert_eq by discriminate.
    reflexivity.
  - unfold CmdServer.applyDiscountHandler.
    rewrite lookup_insert_eq, lookup_insert_ne, lookup_insert_eq by discriminate.
    reflexivity.
  - reflexivity.
  - vm_compute. reflexivity.
  - vm_compute. reflexivity.
  - intros n k Hn Hk Hk50.
    pose proof (forallb_seqZ _ 1 1000 n variants_differ_grid ltac:(lia)) as Hrow.
    pose proof (forallb_seqZ _ 0 101 k Hrow ltac:(lia)) as Hcell.
    apply orb_true_iff in Hcell. destruct Hcell as [Heq|Hd]; [|exact Hd].
    apply Z.eqb_eq in Heq. contradiction.
Qed.

(** * calculate_total *)


Lemma quantity_accepted_1_1000 : forallb quantity_accepted (seqZ 1 1000) = true.
Proof. vm_compute. reflexivity. Qed.

Lemma quantity_in_range (n : Z) :
  1 <= n <= 1000 ->
  Float64.to_int (Float64.of_int n) = n
  /\ Float64.neq (Float64.of_int n) (Float64.of_int n) = false
  /\ Float64.le (Float64.of_int n) 0 = false
  /\ Float64.gt (Float64.of_int n) 1000 = false.
Proof.
  intros Hn.
  pose proof (forallb_seqZ _ 1 1000 n quantity_accepted_1_1000 ltac:(lia)) as H.
  unfold quantity_accepted in H.
  repeat (apply andb_true_iff in H; destruct H as [H ?]).
  apply Z.eqb_eq in H.
  repeat split; try assumption; apply negb_true_iff; assumption.
Qed.


Lemma lookup_catalog_product (p : Product) :
  In p CmdServer.defaultProducts ->
  lookup_product CmdServer.defaultProducts (ID p) = Some p.
Proof.
  intros Hp. simpl in Hp.
  destruct Hp as [<- | [<- | [<- | []]]]; reflexivity.
Qed.

Lemma validate_item_valid e : valid_entry e -> CmdServer.validate_item (entry_value e) = None.
Proof.
  destruct e as [[item p] n]. intros (Hp & Hid & Hq & Hn).
  unfold CmdServer.validate_item, entry_value. simpl fst.
  rewrite Hid, (lookup_catalog_product p Hp), Hq.
  destruct (quantity_in_range n Hn) as (Hint & Hneq & Hle & Hgt).
  rewrite Hint, Hneq, Hle, Hgt. reflexivity.
Qed.

Lemma validate_valid entries :
  Forall valid_entry entries -> CmdServer.validate (map entry_value entries) = None.
Proof.
  induction 1 as [|e l He _ IH]; cbn [map CmdServer.validate]; [reflexivity|].
  rewrite (validate_item_valid e He). exact IH.
Qed.

Lemma accumulate_valid entries :
  Forall valid_entry entries ->
  forall total itemDetails,
  exists added,
    CmdServer.accumulate (total, itemDetails) (map entry_value entries)
    = Some (sum_price_quantity entries total, (itemDetails ++ added)%list)
    /\ length added = length entries.
Proof.
  induction 1 as [|e l He _ IH]; intros total itemDetails.
  - exists []. simpl. rewrite app_nil_r. split; reflexivity.
  - destruct e as [[item p] n]. pose proof He as (Hp & Hid & Hq & Hn).
    destruct (quantity_in_range n Hn) as (Hint & _).
    cbn [map CmdServer.accumulate]. unfold entry_value at 1.
    cbn [fst snd CmdServer.accumulate_item].
    rewrite Hid, Hq, (lookup_catalog_product p Hp), Hint.
    destruct (IH (total + Price p * Float64.of_int n)%float
                 (itemDetails ++ [CmdServer.item_detail (ID p) p n
                                    (Price p * Float64.of_int n)%float])%list)
      as (added & Hacc & Hlen).
    exists (CmdServer.item_detail (ID p) p n (Price p * Float64.of_int n)%float :: added).
    split.
    + rewrite Hacc. rewrite <- app_assoc. reflexivity.
    + simpl. rewrite Hlen. reflexivity.
Qed.

(** C3. For every list of entries, each with the id of a catalog product
    and a whole quantity between 1 and 1000, [calculate_total] succeeds:
    its [total_price] is the sum over the entries of price times quantity
    (in float64, in list order) and its [item_count] is the number of
    entries. *)
Theorem calculateTotal_sums_entries
    (entries : list (gmap string Value * Product * Z)) (rest : gmap string Value) :
  Forall valid_entry entries ->
  entries <> [] ->
  exists itemDetails,
    CmdServer.calculateTotalHandler
      (Some (<["items" := VSlice (map entry_value entries)]> rest))
    = Ok {| IsError := false;
            Content := [NewTextContent (json.Marshal_string
              (VMap (CmdServer.calculateTotal_result
                       (sum_price_quantity entries 0) itemDetails)))] |}
    /\ CmdServer.calculateTotal_result (sum_price_quantity entries 0) itemDetails
         !! "success" = Some (VBool true)
    /\ CmdServer.calculateTotal_result (sum_price_quantity entries 0) itemDetails
         !! "total_price" = Some (VFloat (sum_price_quantity entries 0))
    /\ CmdServer.calculateTotal_result (sum_price_quantity entries 0) itemDetails
         !! "item_count" = Some (VInt (Z.of_nat (length entries))).
Proof.
  intros Hvalid _.
  destruct (accumulate_valid entries Hvalid 0%float []) as (added & Hacc & Hlen).
  exists added. split; [|split; [|split]].
  - unfold CmdServer.calculateTotalHandler. rewrite lookup_insert_eq.
    rewrite (validate_valid entries Hvalid), Hacc. reflexivity.
  - reflexivity.
  - reflexivity.
  - unfold CmdServer.calculateTotal_result.
    rewrite !lookup_insert_ne by discriminate. rewrite lookup_insert_eq, Hlen.
    reflexivity.
Qed.


Lemma calculateTotal_sums_entries_witness :
  sum_price_quantity five_laptops_thirty_phones 0 = 20000%float
  /\ exists itemDetails,
    CmdServer.calculateTotalHandler
      (Some (<["items" := VSlice (map entry_value five_laptops_thirty_phones)]> ∅))
    = Ok {| IsError := false;
            Content := [NewTextContent (json.Marshal_string
              (VMap (CmdServer.calculateTotal_result
                       (sum_price_quantity five_laptops_thirty_phones 0) itemDetails)))] |}
    /\ CmdServer.calculateTotal_result
         (sum_price_quantity five_laptops_thirty_phones 0) itemDetails
         !! "success" = Some (VBool true)
    /\ CmdServer.calculateTotal_result
         (sum_price_quantity five_laptops_thirty_phones 0) itemDetails
         !! "total_price" = Some (VFloat (sum_price_quantity five_laptops_thirty_phones 0))
    /\ CmdServer.calculateTotal_result
         (sum_price_quantity five_laptops_thirty_phones 0) itemDetails
         !! "item_count" = Some (VInt (Z.of_nat (length five_laptops_thirty_phones))).
Proof.
  split; [vm_compute; reflexivity|].
  apply (calculateTotal_sums_entries five_laptops_thirty_phones ∅).
  - repeat constructor; simpl; auto; lia.
  - discriminate.
Defined.

(** * Quantities that are not accepted *)

(** ** float64 facts behind the integer check

    [binary_normalize] on an integer below [2^53] is exact: the mantissa
    is the integer shifted to 53 bits. So a float with a fractional bit is
    never the conversion of its own truncation. *)

Lemma digits2_pos_lower (p : positive) : 2 ^ (Z.pos (digits2_pos p) - 1) <= Z.pos p.
Proof.
  induction p as [p IH|p IH|]; simpl digits2_pos.
  - rewrite Pos2Z.inj_succ. replace (Z.succ (Z.pos (digits2_pos p)) - 1) with (Z.succ (Z.pos (digits2_pos p) - 1)) by lia.
    rewrite Z.pow_succ_r by lia. lia.
  - rewrite Pos2Z.inj_succ. replace (Z.succ (Z.pos (digits2_pos p)) - 1) with (Z.succ (Z.pos (digits2_pos p) - 1)) by lia.
    rewrite Z.pow_succ_r by lia. lia.
  - simpl. lia.
Qed.

Lemma digits2_pos_upper (p : positive) : Z.pos p < 2 ^ Z.pos (digits2_pos p).
Proof.
  induction p as [p IH|p IH|]; simpl digits2_pos.
  - rewrite Pos2Z.inj_succ, Z.pow_succ_r by lia. lia.
  - rewrite Pos2Z.inj_succ, Z.pow_succ_r by lia. lia.
  - simpl. lia.
Qed.

Lemma digits2_pos_le (p : positive) (n : Z) :
  0 <= n -> Z.pos p < 2 ^ n -> Z.pos (digits2_pos p) <= n.
Proof.
  intros Hn Hp. destruct (Z_le_gt_dec (Z.pos (digits2_pos p)) n) as [|Hgt]; [assumption|].
  pose proof (digits2_pos_lower p).
  assert (2 ^ n <= 2 ^ (Z.pos (digits2_pos p) - 1)) by (apply Z.pow_le_mono_r; lia).
  lia.
Qed.

Lemma iter_xO_value (p k : positive) : Z.pos (Pos.iter xO p k) = Z.pos p * 2 ^ Z.pos k.
Proof.
  induction k as [|k IH] using Pos.peano_ind.
  - simpl. lia.
  - rewrite Pos.iter_succ, Pos2Z.inj_succ, Z.pow_succ_r by lia.
    rewrite Pos2Z.inj_xO, IH. lia.
Qed.

Lemma iter_xO_digits (p k : positive) :
  Z.pos (digits2_pos (Pos.iter xO p k)) = Z.pos (digits2_pos p) + Z.pos k.
Proof.
  induction k as [|k IH] using Pos.peano_ind.
  - simpl. lia.
  - rewrite Pos.iter_succ. simpl digits2_pos. rewrite !Pos2Z.inj_succ, IH. lia.
Qed.

Lemma binary_round_aux_canonical (sx : bool) (mz : positive) (ez : Z) :
  Z.pos (digits2_pos mz) = 53 -> -1074 <= ez <= 971 ->
  binary_round_aux prec emax sx (Z.pos mz) ez loc_Exact = S754_finite sx mz ez.
Proof.
  intros Hd He.
  assert (Hs : shr_fexp prec emax (Z.pos mz) ez loc_Exact
               = ({| shr_m := Z.pos mz; shr_r := false; shr_s := false |}, ez)).
  { unfold shr_fexp. simpl Zdigits2. rewrite Hd.
    change IntDef.Z.sub with Z.sub. change IntDef.Z.add with Z.add.
    replace (fexp prec emax (53 + ez) - ez) with 0; [reflexivity|].
    unfold fexp, SpecFloat.emin, prec, emax.
    change IntDef.Z.sub with Z.sub. change IntDef.Z.max with Z.max. lia. }
  unfold binary_round_aux. rewrite Hs. simpl shr_m. simpl loc_of_shr_record.
  simpl round_nearest_even. rewrite Hs. simpl shr_m.
  change IntDef.Z.sub with Z.sub. change IntDef.Z.leb with Z.leb.
  destruct (Z.leb_spec ez (emax - prec)) as [|Hgt]; [reflexivity|].
  unfold emax, prec in Hgt. lia.
Qed.

Lemma binary_round_small (sx : bool) (p : positive) :
  Z.pos (digits2_pos p) <= 53 ->
  exists mz, binary_round prec emax sx p 0 = S754_finite sx mz (Z.pos (digits2_pos p) - 53)
    /\ Z.pos mz = Z.pos p * 2 ^ (53 - Z.pos (digits2_pos p))
    /\ valid_binary (S754_finite sx mz (Z.pos (digits2_pos p) - 53)) = true.
Proof.
  intros Hd. unfold binary_round, shl_align.
  change IntDef.Z.sub with Z.sub. change IntDef.Z.add with Z.add.
  assert (Hf : fexp prec emax (Z.pos (digits2_pos p) + 0) = Z.pos (digits2_pos p) - 53).
  { unfold fexp, SpecFloat.emin, prec, emax.
    change IntDef.Z.sub with Z.sub. change IntDef.Z.max with Z.max. lia. }
  rewrite Hf. rewrite Z.sub_0_r.
  destruct (Z.pos (digits2_pos p) - 53) as [|k|k] eqn:Hk; try lia.
  - exists p. split; [|split].
    + apply binary_round_aux_canonical; lia.
    + replace (53 - Z.pos (digits2_pos p)) with 0 by lia. lia.
    + unfold SpecFloat.valid_binary, bounded, canonical_mantissa, fexp, SpecFloat.emin, prec, emax.
      change IntDef.Z.sub with Z.sub. change IntDef.Z.max with Z.max.
      change IntDef.Z.add with Z.add. change IntDef.Z.eqb with Z.eqb.
      change IntDef.Z.leb with Z.leb.
      apply andb_true_iff. split; [apply Z.eqb_eq|apply Z.leb_le]; lia.
  - exists (Pos.iter xO p k).
    pose proof (iter_xO_digits p k) as Hdig.
    split; [|split].
    + apply binary_round_aux_canonical; lia.
    + rewrite iter_xO_value. f_equal. f_equal. lia.
    + unfold SpecFloat.valid_binary, bounded, canonical_mantissa, fexp, SpecFloat.emin, prec, emax.
      change IntDef.Z.sub with Z.sub. change IntDef.Z.max with Z.max.
      change IntDef.Z.add with Z.add. change IntDef.Z.eqb with Z.eqb.
      change IntDef.Z.leb with Z.leb.
      apply andb_true_iff. split; [apply Z.eqb_eq|apply Z.leb_le]; lia.
Qed.

Lemma eqb_finite (q f : float) (s : bool) (m : positive) (e : Z) :
  Prim2SF q = S754_finite s m e -> (q =? f)%float = true ->
  Prim2SF f = S754_finite s m e.
Proof.
  intros Hq. rewrite FloatAxioms.eqb_spec, Hq. unfold SFeqb, SFcompare.
  change IntDef.Z.compare with Z.compare.
  change (Pos.compare_cont Eq) with Pos.compare.
  destruct (Prim2SF f) as [s'|s'| |s' m' e'];
    [destruct s; discriminate | destruct s, s'; discriminate | discriminate |].
  destruct s, s'; try discriminate;
    destruct (Z.compare_spec e e'); try discriminate;
    destruct (Pos.compare_spec m m'); try discriminate;
    subst; reflexivity.
Qed.


Lemma of_int_small (sx : bool) (p : positive) :
  Z.pos p < 2 ^ 53 ->
  exists mz e, Prim2SF (Float64.of_int (if sx then Z.neg p else Z.pos p)) = S754_finite sx mz e
    /\ -52 <= e <= 0 /\ Z.pos mz = Z.pos p * 2 ^ (- e).
Proof.
  intros Hp.
  assert (Hd : Z.pos (digits2_pos p) <= 53) by (apply digits2_pos_le; [lia|exact Hp]).
  destruct (binary_round_small sx p Hd) as (mz & Hr & Hmz & Hv).
  exists mz, (Z.pos (digits2_pos p) - 53).
  split; [|split].
  - unfold Float64.of_int. destruct sx; simpl binary_normalize; rewrite Hr;
      apply Prim2SF_SF2Prim; exact Hv.
  - lia.
  - rewrite Hmz. f_equal. f_equal. lia.
Qed.

Lemma not_whole_not_converted (q : float) :
  is_whole q = false -> Float64.neq q (Float64.of_int (Float64.to_int q)) = true.
Proof.
  unfold is_whole, Float64.neq. intros Hw.
  apply negb_true_iff. destruct (q =? _)%float eqn:Heq; [exfalso|reflexivity].
  revert Heq. unfold Float64.to_int, Float64.decompose.
  destruct (Prim2SF q) as [s|s| |s m e] eqn:Hq; try discriminate.
  - (* infinity *)
    rewrite FloatAxioms.eqb_spec, Hq. destruct s; vm_compute; discriminate.
  - (* NaN *)
    rewrite FloatAxioms.eqb_spec, Hq. vm_compute. discriminate.
  - (* finite, with a fraction *)
    apply orb_false_iff in Hw. destruct Hw as [He Hm].
    apply Z.leb_gt in He. apply Z.eqb_neq in Hm. rewrite (proj2 (Z.leb_gt 0 e) He).
    pose proof (Prim2SF_valid q) as Hv. rewrite Hq in Hv.
    unfold SpecFloat.valid_binary, bounded, canonical_mantissa, fexp, SpecFloat.emin, prec, emax in Hv.
    change IntDef.Z.sub with Z.sub in Hv. change IntDef.Z.max with Z.max in Hv.
    change IntDef.Z.add with Z.add in Hv. change IntDef.Z.eqb with Z.eqb in Hv.
    apply andb_true_iff in Hv. destruct Hv as [Hc _]. apply Z.eqb_eq in Hc.
    assert (Hd : Z.pos (digits2_pos m) <= 53) by lia.
    assert (Hm53 : Z.pos m < 2 ^ 53).
    { pose proof (digits2_pos_upper m).
      assert (2 ^ Z.pos (digits2_pos m) <= 2 ^ 53) by (apply Z.pow_le_mono_r; lia). lia. }
    assert (Hpow : 0 < 2 ^ (- e)) by (apply Z.pow_pos_nonneg; lia).
    assert (Ha : 0 <= Z.pos m / 2 ^ (- e) <= Z.pos m).
    { split; [apply Z.div_pos; lia|].
      apply Z.div_le_upper_bound; [lia|]. nia. }
    set (a := Z.pos m / 2 ^ (- e)) in *.
    assert (Hrange : (Float64.minInt64 <=? (if s then - a else a))
                     && ((if s then - a else a) <=? Float64.maxInt64) = true).
    { unfold Float64.minInt64, Float64.maxInt64.
      change (2 ^ 63) with 9223372036854775808. change (2 ^ 53) with 9007199254740992 in Hm53.
      apply andb_true_iff. split; apply Z.leb_le; destruct s; lia. }
    cbv zeta. rewrite Hrange. intros Heq.
    pose proof (eqb_finite _ _ _ _ _ Hq Heq) as Hf.
    destruct a as [|p|p] eqn:Hap; [| |lia].
    + destruct s; vm_compute in Hf; discriminate.
    + destruct (of_int_small s p ltac:(lia)) as (mz & e' & Hof & He' & Hmz).
      replace (if s then - Z.pos p else Z.pos p) with (if s then Z.neg p else Z.pos p) in Hf
        by (destruct s; reflexivity).
      rewrite Hof in Hf. injection Hf as -> ->.
      apply Hm. rewrite Hmz. apply Z.mod_mul. lia.
Qed.


Lemma eqb_zero_leb (q : float) : (q =? 0)%float = true -> (q <=? 0)%float = true.
Proof.
  rewrite FloatAxioms.eqb_spec, FloatAxioms.leb_spec.
  change (Prim2SF 0) with (S754_zero false).
  destruct (Prim2SF q) as [s|s| |s m e]; try discriminate; try reflexivity.
  - destruct s; discriminate.
  - destruct s; discriminate.
Qed.

Lemma validate_item_error v r : CmdServer.validate_item v = Some r -> IsError r = true.
Proof.
  unfold CmdServer.validate_item.
  repeat match goal with
         | |- context [match ?x with _ => _ end] => destruct x
         end; intros [= <-]; reflexivity.
Qed.

Lemma validate_error items r : CmdServer.validate items = Some r -> IsError r = true.
Proof.
  induction items as [|v items IH]; simpl; [discriminate|].
  destruct (CmdServer.validate_item v) eqn:Hv; [|exact IH].
  intros [= <-]. exact (validate_item_error _ _ Hv).
Qed.

Lemma validate_item_refuses (item : gmap string Value) (q : float) :
  item !! "quantity" = Some (VFloat q) -> refused_quantity q ->
  CmdServer.validate_item (VMap item) <> None.
Proof.
  intros Hq Hbad. unfold CmdServer.validate_item. rewrite Hq.
  destruct (item !! "product_id") as [[| | | |productID| | |]|]; try discriminate.
  destruct (lookup_product CmdServer.defaultProducts productID); [|discriminate].
  destruct (Float64.neq q _) eqn:Hneq; [discriminate|].
  destruct (Float64.le q 0) eqn:Hle; [discriminate|].
  destruct (Float64.gt q 1000) eqn:Hgt; [discriminate|].
  exfalso. destruct Hbad as [Hz | [Hbig | Hfrac]].
  - unfold Float64.le in Hle. rewrite (eqb_zero_leb q Hz) in Hle. discriminate.
  - unfold Float64.gt in Hgt. rewrite Hbig in Hgt. discriminate.
  - rewrite (not_whole_not_converted q Hfrac) in Hneq. discriminate.
Qed.

Lemma validate_refuses (items : list Value) (v : Value) :
  In v items -> CmdServer.validate_item v <> None -> CmdServer.validate items <> None.
Proof.
  induction items as [|w items IH]; simpl; [contradiction|].
  intros [-> | Hin] Hv.
  - destruct (CmdServer.validate_item v); [discriminate|contradiction].
  - destruct (CmdServer.validate_item w); [discriminate|]. exact (IH Hin Hv).
Qed.


(** C4. [calculate_total] returns a result with [isError = true]
    whenever some entry of [items] has a quantity that is 0, above 1000
    or not a whole number; with one entry of a catalog product and the
    quantity 1 or 1000 its result is not an error. *)
Theorem calculateTotal_quantity_bounds
    (items : list Value) (item rest : gmap string Value) (q : float) :
  In (VMap item) items ->
  item !! "quantity" = Some (VFloat q) ->
  refused_quantity q ->
  (exists r,
     CmdServer.calculateTotalHandler (Some (<["items" := VSlice items]> rest)) = Ok r
     /\ IsError r = true)
  /\ (forall p n, In p CmdServer.defaultProducts -> n = 1 \/ n = 1000 ->
        exists r,
          CmdServer.calculateTotalHandler (Some (single_item p n)) = Ok r
          /\ IsError r = false).
Proof.
  intros Hin Hq Hbad. split.
  - unfold CmdServer.calculateTotalHandler. rewrite lookup_insert_eq.
    pose proof (validate_refuses items (VMap item) Hin
                  (validate_item_refuses item q Hq Hbad)) as Hv.
    destruct (CmdServer.validate items) as [r|] eqn:Hr; [|contradiction].
    exists r. split; [reflexivity|exact (validate_error _ _ Hr)].
  - intros p n Hp Hn.
    set (e := (<["product_id" := VString (ID p)]>
               ({["quantity" := VFloat (Float64.of_int n)]} : gmap string Value), p, n)).
    assert (Hvalid : Forall valid_entry [e]).
    { constructor; [|constructor]. unfold valid_entry, e.
      split; [exact Hp|]. split; [apply lookup_insert_eq|].
      split; [|lia]. rewrite lookup_insert_ne by discriminate.
      apply lookup_singleton_eq. }
    destruct (accumulate_valid [e] Hvalid 0%float []) as (added & Hacc & _).
    eexists. split.
    + unfold CmdServer.calculateTotalHandler, single_item. rewrite lookup_singleton_eq.
      change [VMap _] with (map entry_value [e]).
      rewrite (validate_valid [e] Hvalid), Hacc. reflexivity.
    + reflexivity.
Qed.


Lemma calculateTotal_quantity_bounds_witness :
  (exists r,
     CmdServer.calculateTotalHandler
       (Some (<["items" := VSlice [VMap two_and_a_half]]> ∅)) = Ok r
     /\ IsError r = true)
  /\ (forall p n, In p CmdServer.defaultProducts -> n = 1 \/ n = 1000 ->
        exists r,
          CmdServer.calculateTotalHandler (Some (single_item p n)) = Ok r
          /\ IsError r = false).
Proof.
  apply (calculateTotal_quantity_bounds [VMap two_and_a_half] two_and_a_half ∅ 2.5).
  - left. reflexivity.
  - reflexivity.
  - right. right. vm_compute. reflexivity.
Defined.

Example rejected_quantities :
  refused_quantity 0 /\ refused_quantity 1001 /\ refused_quantity 2.5
  /\ CmdServer.calculateTotalHandler
       (Some {["items" := VSlice [VMap (<["product_id" := VString "1"]>
                                       {["quantity" := VFloat 1001]})]]})
     = Ok (CmdServer.error_text "Quantity cannot exceed 1000")
  /\ CmdServer.calculateTotalHandler
       (Some {["items" := VSlice [VMap (<["product_id" := VString "1"]>
                                       {["quantity" := VFloat 0]})]]})
     = Ok (CmdServer.error_text "Quantity must be greater than 0")
  /\ CmdServer.calculateTotalHandler
       (Some {["items" := VSlice [VMap two_and_a_half]]})
     = Ok (CmdServer.error_text "Quantity must be an integer").
Proof.
  split; [left; reflexivity|]. split; [right; left; reflexivity|].
  split; [right; right; vm_compute; reflexivity|].
  vm_compute. repeat split; reflexivity.
Qed.

(** * More on the handlers of cmd/server/main.go *)

(** An entry that passes the first loop has the shape the second loop
    takes for granted. *)
Lemma validate_item_passed (v : Value) :
  CmdServer.validate_item v = None ->
  exists (item : gmap string Value) (productID : string) (p : Product) (q : float),
    v = VMap item
    /\ item !! "product_id" = Some (VString productID)
    /\ lookup_product CmdServer.defaultProducts productID = Some p
    /\ item !! "quantity" = Some (VFloat q)
    /\ Float64.neq q (Float64.of_int (Float64.to_int q)) = false
    /\ Float64.le q 0 = false
    /\ Float64.gt q 1000 = false.
Proof.
  unfold CmdServer.validate_item.
  destruct v as [| | | | | | |item]; try discriminate.
  destruct (item !! "product_id") as [[| | | |productID| | |]|] eqn:Hid; try discriminate.
  destruct (lookup_product CmdServer.defaultProducts productID) as [p|] eqn:Hp;
    [|discriminate].
  destruct (item !! "quantity") as [[| | |q| | | |]|] eqn:Hq; try discriminate.
  destruct (Float64.neq q _) eqn:Hneq; [discriminate|].
  destruct (Float64.le q 0) eqn:Hle; [discriminate|].
  destruct (Float64.gt q 1000) eqn:Hgt; [discriminate|].
  intros _. exists item, productID, p, q. repeat split; assumption.
Qed.

Lemma accumulate_after_validate (items : list Value) :
  CmdServer.validate items = None ->
  forall total itemDetails,
  exists total' added,
    CmdServer.accumulate (total, itemDetails) items
    = Some (total', (itemDetails ++ added)%list)
    /\ length added = length items.
Proof.
  induction items as [|v items IH]; intros Hval total itemDetails.
  - exists total, []. rewrite app_nil_r. split; reflexivity.
  - cbn [CmdServer.validate] in Hval.
    destruct (CmdServer.validate_item v) eqn:Hv; [discriminate|].
    destruct (validate_item_passed v Hv) as (item & pid & p & q & -> & Hid & Hp & Hq & _).
    cbn [CmdServer.accumulate CmdServer.accumulate_item].
    rewrite Hid, Hq, Hp.
    destruct (IH Hval (total + Price p * Float64.of_int (Float64.to_int q))%float
                (itemDetails ++ [CmdServer.item_detail pid p (Float64.to_int q)
                   (Price p * Float64.of_int (Float64.to_int q))%float])%list)
      as (total' & added & Hacc & Hlen).
    exists total', (CmdServer.item_detail pid p (Float64.to_int q)
                      (Price p * Float64.of_int (Float64.to_int q))%float :: added).
    split.
    + rewrite Hacc, <- app_assoc. reflexivity.
    + simpl. rewrite Hlen. reflexivity.
Qed.

(** X1. Whatever the entries of [items] are, [calculate_total] returns a
    tool result: never a Go error and never a panic, although the second
    loop asserts the types of the fields without the comma-ok form. *)
Theorem calculateTotal_returns_result (args : gmap string Value) (items : list Value) :
  args !! "items" = Some (VSlice items) ->
  exists r, CmdServer.calculateTotalHandler (Some args) = Ok r.
Proof.
  intros Hitems. unfold CmdServer.calculateTotalHandler. rewrite Hitems.
  destruct (CmdServer.validate items) as [r|] eqn:Hval; [exists r; reflexivity|].
  destruct (accumulate_after_validate items Hval 0%float []) as (total & added & Hacc & _).
  rewrite Hacc. eexists. reflexivity.
Qed.

Lemma calculateTotal_returns_result_witness :
  exists r,
    CmdServer.calculateTotalHandler
      (Some {["items" := VSlice [VString "laptop"; VNil; VMap ∅]]}) = Ok r.
Proof.
  apply (calculateTotal_returns_result
           {["items" := VSlice [VString "laptop"; VNil; VMap ∅]]}
           [VString "laptop"; VNil; VMap ∅]).
  reflexivity.
Defined.


(** X2. When [calculate_total] answers with a result that is not an
    error, every entry of [items] was an object naming a catalog product
    with a whole quantity above 0 and at most 1000, and the payload counts
    exactly the entries of [items]. *)
Theorem calculateTotal_success_means_valid
    (args : gmap string Value) (items : list Value) (r : CallToolResult) :
  args !! "items" = Some (VSlice items) ->
  CmdServer.calculateTotalHandler (Some args) = Ok r ->
  IsError r = false ->
  Forall accepted_entry items
  /\ exists total itemDetails,
       Content r = [NewTextContent (json.Marshal_string
                      (VMap (CmdServer.calculateTotal_result total itemDetails)))]
       /\ length itemDetails = length items.
Proof.
  intros Hitems. unfold CmdServer.calculateTotalHandler. rewrite Hitems.
  destruct (CmdServer.validate items) as [r'|] eqn:Hval.
  - intros [= <-] Herr. rewrite (validate_error _ _ Hval) in Herr. discriminate.
  - destruct (accumulate_after_validate items Hval 0%float []) as (total & added & Hacc & Hlen).
    rewrite Hacc. intros [= <-] _. split.
    + clear Hacc Hlen added total Hitems. induction items as [|v items IH]; [constructor|].
      cbn [CmdServer.validate] in Hval.
      destruct (CmdServer.validate_item v) eqn:Hv; [discriminate|].
      constructor; [|exact (IH Hval)].
      destruct (validate_item_passed v Hv)
        as (item & pid & p & q & -> & Hid & Hp & Hq & Hneq & Hle & Hgt).
      exists item, pid, p, q. repeat split; try assumption.
      destruct (is_whole q) eqn:Hw; [reflexivity|].
      rewrite (not_whole_not_converted q Hw) in Hneq. discriminate.
    + exists total, added. split; [reflexivity|exact Hlen].
Qed.

Lemma calculateTotal_success_means_valid_witness :
  Forall accepted_entry (map entry_value five_laptops_thirty_phones)
  /\ exists total itemDetails,
       [NewTextContent (json.Marshal_string
          (VMap (CmdServer.calculateTotal_result 20000
             [CmdServer.item_detail "1" {| ID := "1"; Name := "Laptop"; Price := 1000 |} 5 5000;
              CmdServer.item_detail "2" {| ID := "2"; Name := "Smartphone"; Price := 500 |} 30 15000])))]
       = [NewTextContent (json.Marshal_string
                      (VMap (CmdServer.calculateTotal_result total itemDetails)))]
       /\ length itemDetails = length (map entry_value five_laptops_thirty_phones).
Proof.
  apply (calculateTotal_success_means_valid
           {["items" := VSlice (map entry_value five_laptops_thirty_phones)]}
           (map entry_value five_laptops_thirty_phones)
           {| IsError := false;
              Content := [NewTextContent (json.Marshal_string
                (VMap (CmdServer.calculateTotal_result 20000
                   [CmdServer.item_detail "1" {| ID := "1"; Name := "Laptop"; Price := 1000 |} 5 5000;
                    CmdServer.item_detail "2" {| ID := "2"; Name := "Smartphone"; Price := 500 |} 30 15000])))] |}).
  - reflexivity.
  - vm_compute. reflexivity.
  - reflexivity.
Defined.

(** X3. For every product of the catalog, [get_price] on its id returns
    a result that is not an error, with the fixed price and the message
    "The price of <name> is $<price with two decimals>". *)
Theorem getPrice_known_id (args : gmap string Value) (p : Product) :
  In p CmdServer.defaultProducts ->
  args !! "product_id" = Some (VString (ID p)) ->
  CmdServer.getPriceHandler (Some args)
  = Ok {| IsError := false;
          Content := [NewTextContent
            (json.Marshal_string (VMap (CmdServer.getPrice_result p)))] |}
  /\ CmdServer.getPrice_result p !! "success" = Some (VBool true)
  /\ CmdServer.getPrice_result p !! "price" = Some (VFloat (Price p))
  /\ CmdServer.getPrice_result p !! "message"
     = Some (VString ("The price of " +:+ Name p +:+ " is $" +:+ Float64.fmt_2f (Price p)))
  /\ In (Float64.fmt_2f (Price p)) ["1000.00"; "500.00"; "300.00"].
Proof.
  intros Hp Hid. split; [|split; [|split; [|split]]].
  - unfold CmdServer.getPriceHandler. rewrite Hid, (lookup_catalog_product p Hp).
    reflexivity.
  - reflexivity.
  - unfold CmdServer.getPrice_result. rewrite !lookup_insert_ne by discriminate.
    apply lookup_insert_eq.
  - unfold CmdServer.getPrice_result. rewrite !lookup_insert_ne by discriminate.
    apply lookup_insert_eq.
  - simpl in Hp. destruct Hp as [<- | [<- | [<- | []]]]; vm_compute; auto.
Qed.


Lemma getPrice_known_id_witness :
  CmdServer.getPriceHandler (Some {["product_id" := VString "3"]})
  = Ok {| IsError := false;
          Content := [NewTextContent
            (json.Marshal_string (VMap (CmdServer.getPrice_result tablet)))] |}
  /\ CmdServer.getPrice_result tablet !! "success" = Some (VBool true)
  /\ CmdServer.getPrice_result tablet !! "price" = Some (VFloat 300)
  /\ CmdServer.getPrice_result tablet !! "message"
     = Some (VString ("The price of " +:+ "Tablet" +:+ " is $" +:+ Float64.fmt_2f 300))
  /\ In (Float64.fmt_2f 300) ["1000.00"; "500.00"; "300.00"].
Proof.
  apply (getPrice_known_id {["product_id" := VString "3"]} tablet).
  - simpl. auto.
  - reflexivity.
Defined.

Lemma lookup_product_some products id p :
  lookup_product products id = Some p -> In p products /\ ID p = id.
Proof.
  unfold lookup_product. intros H. apply find_some in H. destruct H as [Hin Heq].
  split; [exact Hin|]. apply String.eqb_eq. exact Heq.
Qed.

(** X4. [get_price] returns a Go error exactly when it has no arguments
    or [product_id] is not a string; otherwise it returns a tool result,
    which is an error exactly when no product of the catalog has that
    id. *)
Theorem getPrice_outcomes (args : Arguments) :
  match CmdServer.getPriceHandler args with
  | Err e =>
      (args = None /\ e = Errorf "no arguments provided")
      \/ (exists m, args = Some m
                    /\ (forall id, m !! "product_id" <> Some (VString id))
                    /\ e = Errorf "product_id is not a string")
  | Ok r =>
      exists m id, args = Some m /\ m !! "product_id" = Some (VString id)
        /\ (IsError r = true <-> Forall (fun p => ID p <> id) CmdServer.defaultProducts)
  | Panic => False
  end.
Proof.
  unfold CmdServer.getPriceHandler. destruct args as [m|]; [|left; auto].
  destruct (m !! "product_id") as [[| | | |pid| | |]|] eqn:Hid;
    try (right; exists m; split; [reflexivity|];
         split; [intros pid'; rewrite Hid; discriminate|reflexivity]).
  destruct (lookup_product CmdServer.defaultProducts pid) as [p|] eqn:Hp.
  - exists m, pid. split; [reflexivity|]. split; [exact Hid|]. simpl. split.
    + discriminate.
    + intros Hall. destruct (lookup_product_some _ _ _ Hp) as [Hin Heq].
      rewrite List.Forall_forall in Hall. exfalso. exact (Hall p Hin Heq).
  - exists m, pid. split; [reflexivity|]. split; [exact Hid|]. simpl. split; [|reflexivity].
    intros _. apply List.Forall_forall. intros p Hin Heq.
    unfold lookup_product in Hp.
    apply (find_none _ _ Hp) in Hin. rewrite Heq, String.eqb_refl in Hin. discriminate.
Qed.

(** X5. [apply_discount] checks the kind of its two arguments and
    nothing else: it returns a tool result exactly when [total_price] and
    [discount_percentage] are both float64 values, and that result is
    never an error, whatever the numbers (negative, above 100); a
    [total_price] of another kind is reported first. *)
Theorem applyDiscount_outcomes (args : gmap string Value) :
  match CmdServer.applyDiscountHandler (Some args) with
  | Ok r =>
      IsError r = false
      /\ exists t p, args !! "total_price" = Some (VFloat t)
                     /\ args !! "discount_percentage" = Some (VFloat p)
  | Err e =>
      ((forall t, args !! "total_price" <> Some (VFloat t))
       /\ e = Errorf "missing total_price")
      \/ ((exists t, args !! "total_price" = Some (VFloat t))
          /\ (forall p, args !! "discount_percentage" <> Some (VFloat p))
          /\ e = Errorf "missing discount_percentage")
  | Panic => False
  end.
Proof.
  unfold CmdServer.applyDiscountHandler.
  destruct (args !! "total_price") as [[| | |t| | | |]|];
    try (left; split; [intros t'; discriminate|reflexivity]).
  destruct (args !! "discount_percentage") as [[| | |p| | | |]|];
    try (right; split; [exists t; reflexivity|
           split; [intros p'; discriminate|reflexivity]]).
  split; [reflexivity|]. exists t, p. split; reflexivity.
Qed.

Example applyDiscount_unchecked_numbers :
  CmdServer.applyDiscount_result 1000 (-20) !! "discounted_price" = Some (VFloat (-200))
  /\ CmdServer.applyDiscount_result 1000 150 !! "discounted_price" = Some (VFloat 1500)
  /\ CmdServer.applyDiscount_result 1000 150 !! "saved_amount" = Some (VFloat (-500))
  /\ CmdServer.applyDiscountHandler
       (Some (<["total_price" := VString "2000"]> {["discount_percentage" := VFloat 80]}))
     = Err (Errorf "missing total_price").
Proof. vm_compute. repeat split; reflexivity. Qed.

(** * The handlers of server/server.go against those of cmd/server/main.go *)

Lemma legacy_add_valid e total :
  valid_entry e ->
  LegacyServer.add_item total (entry_value e)
  = (total + Price (snd (fst e)) * Float64.of_int (snd e))%float.
Proof.
  destruct e as [[item p] n]. intros (Hp & Hid & Hq & Hn).
  destruct (quantity_in_range n Hn) as (Hint & _).
  unfold LegacyServer.add_item, entry_value. cbn [fst snd].
  rewrite Hid, Hq.
  change LegacyServer.defaultProducts with CmdServer.defaultProducts.
  rewrite (lookup_catalog_product p Hp), Hint. reflexivity.
Qed.

Lemma legacy_fold_valid entries :
  Forall valid_entry entries ->
  forall total,
    fold_left LegacyServer.add_item (map entry_value entries) total
    = sum_price_quantity entries total.
Proof.
  induction 1 as [|e l He _ IH]; intros total; [reflexivity|].
  cbn [map fold_left]. rewrite (legacy_add_valid e total He), IH. reflexivity.
Qed.

(** X6. On entries that the handler of cmd/server/main.go accepts
    (catalog products, whole quantities from 1 to 1000) the two
    [calculate_total] handlers agree: the text the minimal server returns
    is the [message] of the structured result, "Total price is $" and the
    same sum with two decimals. *)
Theorem calculateTotal_variants_agree
    (entries : list (gmap string Value * Product * Z)) (rest : gmap string Value) :
  Forall valid_entry entries ->
  let text := "Total price is $" +:+ Float64.fmt_2f (sum_price_quantity entries 0) in
  LegacyServer.calculateTotalHandler
    (Some (<["items" := VSlice (map entry_value entries)]> rest))
  = Ok (LegacyServer.text_result false text)
  /\ exists itemDetails,
       CmdServer.calculateTotalHandler
         (Some (<["items" := VSlice (map entry_value entries)]> rest))
       = Ok {| IsError := false;
               Content := [NewTextContent (json.Marshal_string
                 (VMap (CmdServer.calculateTotal_result
                          (sum_price_quantity entries 0) itemDetails)))] |}
       /\ CmdServer.calculateTotal_result (sum_price_quantity entries 0) itemDetails
            !! "message" = Some (VString text).
Proof.
  intros Hvalid. cbv zeta. split.
  - unfold LegacyServer.calculateTotalHandler. rewrite lookup_insert_eq.
    rewrite (legacy_fold_valid entries Hvalid). reflexivity.
  - destruct (accumulate_valid entries Hvalid 0%float []) as (added & Hacc & Hlen).
    exists added. split.
    + unfold CmdServer.calculateTotalHandler. rewrite lookup_insert_eq.
      rewrite (validate_valid entries Hvalid), Hacc. reflexivity.
    + unfold CmdServer.calculateTotal_result.
      rewrite !lookup_insert_ne by discriminate. apply lookup_insert_eq.
Qed.

Lemma calculateTotal_variants_agree_witness :
  LegacyServer.calculateTotalHandler
    (Some (<["items" := VSlice (map entry_value five_laptops_thirty_phones)]> ∅))
  = Ok (LegacyServer.text_result false
          ("Total price is $" +:+
           Float64.fmt_2f (sum_price_quantity five_laptops_thirty_phones 0)))
  /\ exists itemDetails,
       CmdServer.calculateTotalHandler
         (Some (<["items" := VSlice (map entry_value five_laptops_thirty_phones)]> ∅))
       = Ok {| IsError := false;
               Content := [NewTextContent (json.Marshal_string
                 (VMap (CmdServer.calculateTotal_result
                          (sum_price_quantity five_laptops_thirty_phones 0) itemDetails)))] |}
       /\ CmdServer.calculateTotal_result
            (sum_price_quantity five_laptops_thirty_phones 0) itemDetails
            !! "message"
          = Some (VString ("Total price is $" +:+
                   Float64.fmt_2f (sum_price_quantity five_laptops_thirty_phones 0))).
Proof.
  apply (calculateTotal_variants_agree five_laptops_thirty_phones ∅).
  repeat constructor; simpl; auto; lia.
Defined.

(** X7. Where the handler of cmd/server/main.go refuses a request
    because of a quantity (zero, above 1000, not whole), the minimal
    server of server/server.go still answers with a total and no error:
    it validates nothing. *)
Theorem calculateTotal_legacy_validates_nothing
    (items : list Value) (item rest : gmap string Value) (q : float) :
  In (VMap item) items ->
  item !! "quantity" = Some (VFloat q) ->
  refused_quantity q ->
  (exists r,
     CmdServer.calculateTotalHandler (Some (<["items" := VSlice items]> rest)) = Ok r
     /\ IsError r = true)
  /\ (exists total,
        LegacyServer.calculateTotalHandler (Some (<["items" := VSlice items]> rest))
        = Ok (LegacyServer.text_result false
                ("Total price is $" +:+ Float64.fmt_2f total))).
Proof.
  intros Hin Hq Hbad. split.
  - unfold CmdServer.calculateTotalHandler. rewrite lookup_insert_eq.
    pose proof (validate_refuses items (VMap item) Hin
                  (validate_item_refuses item q Hq Hbad)) as Hv.
    destruct (CmdServer.validate items) as [r|] eqn:Hr; [|contradiction].
    exists r. split; [reflexivity|exact (validate_error _ _ Hr)].
  - unfold LegacyServer.calculateTotalHandler. rewrite lookup_insert_eq.
    eexists. reflexivity.
Qed.

Lemma calculateTotal_legacy_validates_nothing_witness :
  (exists r,
     CmdServer.calculateTotalHandler
       (Some (<["items" := VSlice [VMap two_and_a_half]]> ∅)) = Ok r
     /\ IsError r = true)
  /\ (exists total,
        LegacyServer.calculateTotalHandler
          (Some (<["items" := VSlice [VMap two_and_a_half]]> ∅))
        = Ok (LegacyServer.text_result false
                ("Total price is $" +:+ Float64.fmt_2f total))).
Proof.
  apply (calculateTotal_legacy_validates_nothing
           [VMap two_and_a_half] two_and_a_half ∅ 2.5).
  - left. reflexivity.
  - reflexivity.
  - right. right. vm_compute. reflexivity.
Defined.

Example legacy_truncates_and_subtracts :
  LegacyServer.calculateTotalHandler (Some {["items" := VSlice [VMap two_and_a_half]]})
  = Ok (LegacyServer.text_result false "Total price is $2000.00")
  /\ LegacyServer.calculateTotalHandler
       (Some {["items" := VSlice [VMap (<["product_id" := VString "1"]>
                                       {["quantity" := VFloat (-1)]});
                                  VString "junk";
                                  VMap (<["product_id" := VString "7"]>
                                       {["quantity" := VFloat 3]})]]})
     = Ok (LegacyServer.text_result false "Total price is $-1000.00").
Proof. vm_compute. split; reflexivity. Qed.

(** X8. The two [get_price] handlers fail and succeed together: on any
    arguments they return the same Go error, or results with the same
    error flag; for a catalog product the text of the minimal server is
    the [message] of the structured result. *)
Theorem getPrice_variants_agree (args : Arguments) :
  match CmdServer.getPriceHandler args, LegacyServer.getPriceHandler args with
  | Err e, Err e' => e = e'
  | Ok r, Ok r' =>
      IsError r = IsError r'
      /\ (IsError r = false ->
          exists p, In p CmdServer.defaultProducts
            /\ Content r' = [NewTextContent
                 ("The price of " +:+ Name p +:+ " is $" +:+ Float64.fmt_2f (Price p))]
            /\ Content r = [NewTextContent
                 (json.Marshal_string (VMap (CmdServer.getPrice_result p)))])
  | _, _ => False
  end.
Proof.
  unfold CmdServer.getPriceHandler, LegacyServer.getPriceHandler.
  destruct args as [m|]; [|reflexivity].
  destruct (m !! "product_id") as [[| | | |pid| | |]|]; try reflexivity.
  change LegacyServer.defaultProducts with CmdServer.defaultProducts.
  destruct (lookup_product CmdServer.defaultProducts pid) as [p|] eqn:Hp.
  - split; [reflexivity|]. intros _. exists p.
    split; [exact (proj1 (lookup_product_some _ _ _ Hp))|]. split; reflexivity.
  - split; [reflexivity|]. discriminate.
Qed.

(** * More on the client's loop over the tool calls *)

(** What [record_result] changes: never the connection, and the output
    only grows. *)
Lemma record_result_server {ChildState : Type} (t : @Client.turn ChildState)
    (s : MCPServer ChildState) sr t' :
  Client.record_result t s sr = Ok t' -> Client.server t' = s.
Proof.
  unfold Client.record_result.
  destruct (Client.get sr "message") as [[| | | |msg| | |]|]; try discriminate;
    destruct (Client.get sr "success") as [[|[]| | | | | |]|]; try discriminate;
    intros [= <-]; reflexivity.
Qed.


(** X9. The propagation rule is unconditional: when the previous
    structured result has a float64 [total_price], an [apply_discount]
    call is sent with that price as its [total_price], replacing whatever
    value the call's own arguments gave. *)
Theorem propagation_overrides_total_price {ChildState : Type}
    (child : ChildState -> string -> ChildState * Runtime.exchange)
    (t t' : Client.turn) (last arguments : gmap string Value)
    (text : string) (price : float) :
  Client.lastStructuredResult t = Some last ->
  last !! "total_price" = Some (VFloat price) ->
  json.Unmarshal_map text = Ok (Some arguments) ->
  snd (child (cmd (Client.server t))
         (request_line "apply_discount"
            (Some (<["total_price" := VFloat price]> arguments))))
  <> Runtime.BrokenPipe ->
  Client.toolCall_step child t {| Call_Name := "apply_discount"; Call_Arguments := text |}
  = Ok t' ->
  stdin (Client.server t')
  = (stdin (Client.server t) ++
     [request_line "apply_discount"
        (Some (<["total_price" := VFloat price]> arguments))])%list.
Proof.
  intros Hlast Hprice Hargs Hpipe. unfold Client.toolCall_step.
  cbn [Call_Arguments Call_Name]. rewrite Hargs.
  unfold Client.previous_total_price. cbn [String.eqb Ascii.eqb Bool.eqb].
  rewrite Hlast, Hprice. cbn [Client.set_total_price].
  unfold Client.CallTool, Client.send. cbn [Client.server Client.print].
  fold (request_line "apply_discount" (Some (<["total_price" := VFloat price]> arguments))).
  destruct (child _ _) as [c x]. cbn [snd] in Hpipe.
  destruct x as [| |line]; [contradiction| |].
  - intros [= <-]. reflexivity.
  - destruct (Client.parseStructuredResponse line) as [sr|e|]; [| |discriminate].
    + intros Hrec. rewrite (record_result_server _ _ _ _ Hrec). reflexivity.
    + intros [= <-]. reflexivity.
Qed.


Lemma propagation_overrides_total_price_witness :
  stdin (Client.server
           (turn_of (Client.toolCall_step Client.product_server (turn_of after_total)
                       {| Call_Name := "apply_discount"; Call_Arguments := own_price_text |})))
  = (stdin (Client.server (turn_of after_total)) ++
     [request_line "apply_discount"
        (Some (<["total_price" := VFloat 20000]> own_price_arguments))])%list
  /\ json.Marshal_string (VMap (<["total_price" := VFloat 20000]> own_price_arguments))
     = dq "{'discount_percentage':30,'total_price':20000}".
Proof.
  split; [|vm_compute; reflexivity].
  apply (propagation_overrides_total_price Client.product_server (turn_of after_total)
           _ total_result own_price_arguments own_price_text 20000).
  - vm_compute. reflexivity.
  - vm_compute. reflexivity.
  - vm_compute. reflexivity.
  - vm_compute. discriminate.
  - vm_compute. reflexivity.
Defined.

(** X10. Without a float64 [total_price] in the previous structured
    result, or for a tool other than [apply_discount], nothing is
    propagated: the call is sent with its own arguments. *)
Theorem no_propagation_sends_own_arguments {ChildState : Type}
    (child : ChildState -> string -> ChildState * Runtime.exchange)
    (t t' : Client.turn) (name text : string) (arguments : option (gmap string Value)) :
  name <> "apply_discount"
  \/ (forall price,
        Client.get (Client.lastStructuredResult t) "total_price" <> Some (VFloat price)) ->
  json.Unmarshal_map text = Ok arguments ->
  snd (child (cmd (Client.server t)) (request_line name arguments)) <> Runtime.BrokenPipe ->
  Client.toolCall_step child t {| Call_Name := name; Call_Arguments := text |} = Ok t' ->
  stdin (Client.server t')
  = (stdin (Client.server t) ++ [request_line name arguments])%list.
Proof.
  intros Hno Hargs Hpipe. unfold Client.toolCall_step.
  cbn [Call_Arguments Call_Name]. rewrite Hargs.
  assert (Hprev : Client.previous_total_price name (Client.lastStructuredResult t) = None).
  { unfold Client.previous_total_price.
    destruct (String.eqb_spec name "apply_discount") as [Heq|]; [|reflexivity].
    destruct Hno as [Hne|Hno]; [contradiction|].
    destruct (Client.lastStructuredResult t) as [last|]; [|reflexivity].
    simpl in Hno. destruct (last !! "total_price") as [[| | |price| | | |]|];
      try reflexivity. exfalso. exact (Hno price eq_refl). }
  rewrite Hprev. unfold Client.CallTool, Client.send.
  fold (request_line name arguments).
  destruct (child _ _) as [c x]. cbn [snd] in Hpipe.
  destruct x as [| |line]; [contradiction| |].
  - intros [= <-]. reflexivity.
  - destruct (Client.parseStructuredResponse line) as [sr|e|]; [| |discriminate].
    + intros Hrec. rewrite (record_result_server _ _ _ _ Hrec). reflexivity.
    + intros [= <-]. reflexivity.
Qed.

Lemma no_propagation_sends_own_arguments_witness :
  stdin (Client.server
           (turn_of (Client.toolCall_step Client.product_server (turn_of after_total)
                       {| Call_Name := "get_price";
                          Call_Arguments := dq "{'product_id':'3'}" |})))
  = (stdin (Client.server (turn_of after_total)) ++
     [request_line "get_price" (Some {["product_id" := VString "3"]})])%list.
Proof.
  apply (no_propagation_sends_own_arguments Client.product_server (turn_of after_total)
           _ "get_price" (dq "{'product_id':'3'}") (Some {["product_id" := VString "3"]})).
  - left. discriminate.
  - vm_compute. reflexivity.
  - vm_compute. discriminate.
  - vm_compute. reflexivity.
Defined.



(** X12. A tool call whose arguments are not a JSON object is skipped:
    nothing is written to the child, the last message and the last
    structured result are kept, and the loop goes on with the calls that
    follow. *)
Theorem unparsable_arguments_skip_the_call {ChildState : Type}
    (child : ChildState -> string -> ChildState * Runtime.exchange)
    (t : Client.turn) (name text : string) (rest : list ToolCall) (e : error) :
  json.Unmarshal_map text = Err e ->
  let t' := Client.print t (PrintErrorParsingArguments e) in
  Client.toolCalls_from child t ({| Call_Name := name; Call_Arguments := text |} :: rest)
  = Client.toolCalls_from child t' rest
  /\ stdin (Client.server t') = stdin (Client.server t)
  /\ Client.lastResult t' = Client.lastResult t
  /\ Client.lastStructuredResult t' = Client.lastStructuredResult t.
Proof.
  intros Hargs. cbv zeta. split; [|repeat split].
  cbn [Client.toolCalls_from]. unfold Client.toolCall_step.
  cbn [Call_Arguments]. rewrite Hargs. reflexivity.
Qed.

Lemma unparsable_arguments_skip_the_call_witness :
  Client.toolCalls_from Client.product_server (turn_of after_total)
    ({| Call_Name := "apply_discount"; Call_Arguments := "[30]" |} :: [Client.discount_call])
  = Client.toolCalls_from Client.product_server
      (Client.print (turn_of after_total)
         (PrintErrorParsingArguments (UnmarshalTypeError "array")))
      [Client.discount_call]
  /\ stdin (Client.server (Client.print (turn_of after_total)
        (PrintErrorParsingArguments (UnmarshalTypeError "array"))))
     = stdin (Client.server (turn_of after_total))
  /\ Client.lastResult (Client.print (turn_of after_total)
        (PrintErrorParsingArguments (UnmarshalTypeError "array")))
     = Client.lastResult (turn_of after_total)
  /\ Client.lastStructuredResult (Client.print (turn_of after_total)
        (PrintErrorParsingArguments (UnmarshalTypeError "array")))
     = Client.lastStructuredResult (turn_of after_total).
Proof.
  apply (unparsable_arguments_skip_the_call Client.product_server (turn_of after_total)
           "apply_discount" "[30]" [Client.discount_call] (UnmarshalTypeError "array")).
  vm_compute. reflexivity.
Defined.

(** X13. When no reply comes back for a call (the write fails or the
    stream has ended), the step is reported and the chain state survives
    it: the last message and the last structured result are those of the
    step before, so a later [apply_discount] still finds its price. *)
Theorem failed_call_keeps_chain_state {ChildState : Type}
    (child : ChildState -> string -> ChildState * Runtime.exchange)
    (t : Client.turn) (name text : string) (arguments : gmap string Value) :
  json.Unmarshal_map text = Ok (Some arguments) ->
  (forall req line, snd (child (cmd (Client.server t)) req) <> Runtime.Reply line) ->
  exists t',
    Client.toolCall_step child t {| Call_Name := name; Call_Arguments := text |} = Ok t'
    /\ Client.lastResult t' = Client.lastResult t
    /\ Client.lastStructuredResult t' = Client.lastStructuredResult t.
Proof.
  intros Hargs Hnone. unfold Client.toolCall_step.
  cbn [Call_Arguments Call_Name]. rewrite Hargs.
  destruct (Client.previous_total_price name (Client.lastStructuredResult t)) as [price|];
    cbn [Client.set_total_price]; unfold Client.CallTool, Client.send;
    cbn [Client.server Client.print];
    match goal with
    | |- context [child ?c ?req] =>
        pose proof (Hnone req) as Hreq; destruct (child c req) as [c' x]
    end;
    cbn [snd] in Hreq; destruct x as [| |line];
    try (exfalso; exact (Hreq line eq_refl));
    eexists; (split; [reflexivity|split; reflexivity]).
Qed.


Lemma failed_call_keeps_chain_state_witness :
  exists t',
    Client.toolCall_step silent (turn_of after_total)
      {| Call_Name := "get_price"; Call_Arguments := dq "{'product_id':'3'}" |} = Ok t'
    /\ Client.lastResult t' = Client.lastResult (turn_of after_total)
    /\ Client.lastStructuredResult t' = Client.lastStructuredResult (turn_of after_total).
Proof.
  apply (failed_call_keeps_chain_state silent (turn_of after_total) "get_price"
           (dq "{'product_id':'3'}") {["product_id" := VString "3"]}).
  - vm_compute. reflexivity.
  - intros req line. discriminate.
Defined.

(** X14. The loop takes the [message] of a structured result to be a
    string without checking: a reply whose content is an object with a
    [message] of another kind makes the step panic. *)
Theorem message_of_another_kind_panics {ChildState : Type}
    (child : ChildState -> string -> ChildState * Runtime.exchange)
    (t : Client.turn) (name text line : string) (c : ChildState)
    (arguments : option (gmap string Value)) (m : gmap string Value) (v : Value) :
  name <> "apply_discount" ->
  json.Unmarshal_map text = Ok arguments ->
  child (cmd (Client.server t)) (request_line name arguments) = (c, Runtime.Reply line) ->
  Client.parseStructuredResponse line = Ok (Some m) ->
  m !! "message" = Some v ->
  (forall s, v <> VString s) ->
  Client.toolCall_step child t {| Call_Name := name; Call_Arguments := text |} = Panic.
Proof.
  intros Hname Hargs Hchild Hparse Hmsg Hkind. unfold Client.toolCall_step.
  cbn [Call_Arguments Call_Name]. rewrite Hargs.
  unfold Client.previous_total_price.
  destruct (String.eqb_spec name "apply_discount") as [|_]; [contradiction|].
  unfold Client.CallTool, Client.send. fold (request_line name arguments).
  rewrite Hchild, Hparse. unfold Client.record_result, Client.get. rewrite Hmsg.
  destruct v as [| | | |s| | |]; try reflexivity.
  exfalso. exact (Hkind s eq_refl).
Qed.


Lemma message_of_another_kind_panics_witness :
  Client.toolCall_step (parrot numeric_message_reply) (turn_of after_total)
    {| Call_Name := "help"; Call_Arguments := "{}" |} = Panic.
Proof.
  apply (message_of_another_kind_panics (parrot numeric_message_reply) (turn_of after_total)
           "help" "{}" numeric_message_reply tt (Some ∅) {["message" := VFloat 5]} (VFloat 5)).
  - discriminate.
  - vm_compute. reflexivity.
  - reflexivity.
  - vm_compute. reflexivity.
  - reflexivity.
  - discriminate.
Defined.

Lemma perform_stdin_length {ChildState : Type}
    (child : ChildState -> string -> ChildState * Runtime.exchange)
    (s : MCPServer ChildState) (o : operation) :
  (length (stdin (perform child s o)) <= S (length (stdin s)))%nat.
Proof.
  assert (Hsend : forall reqBytes,
            (length (stdin (fst (Client.send child s reqBytes))) <= S (length (stdin s)))%nat).
  { intros reqBytes. destruct (send_stdin child s reqBytes) as [-> | ->];
      [lia|]. rewrite length_app. simpl. lia. }
  destruct o as [| |name arguments]; simpl.
  - unfold Client.Initialize. specialize (Hsend (json.Marshal_string (VMap Client.initRequest))).
    destruct (Client.send child s _); exact Hsend.
  - unfold Client.ListTools.
    specialize (Hsend (json.Marshal_string (VMap Client.listToolsRequest))).
    destruct (Client.send child s _); exact Hsend.
  - unfold Client.CallTool.
    specialize (Hsend (json.Marshal_string (VMap (Client.toolRequest name arguments)))).
    destruct (Client.send child s _); exact Hsend.
Qed.

(** X15. Each operation of the client writes at most one line: after any
    sequence of [Initialize], [ListTools] and [CallTool], against any
    child, the child has been sent no more lines than operations were
    made. *)
Theorem one_line_per_operation {ChildState : Type}
    (child : ChildState -> string -> ChildState * Runtime.exchange)
    (c : ChildState) (ops : list operation) :
  (length (stdin (session child c ops)) <= length ops)%nat.
Proof.
  unfold session.
  assert (H : forall s, (length (stdin (fold_left (perform child) ops s))
                         <= length (stdin s) + length ops)%nat).
  { induction ops as [|o ops IH]; intros s; simpl; [lia|].
    specialize (IH (perform child s o)).
    pose proof (perform_stdin_length child s o). lia. }
  specialize (H (Client.NewMCPServer c)). simpl in H. exact H.
Qed.

(** X16. [Initialize] accepts any reply that is a JSON object or [null],
    whatever it holds (an error object too): it fails only when the line
    is not JSON of that kind. It prints the server's identity only when
    [result.serverInfo] is an object. *)
Theorem initialize_accepts_any_object {ChildState : Type}
    (child : ChildState -> string -> ChildState * Runtime.exchange)
    (s : MCPServer ChildState) (c : ChildState) (line : string)
    (response : option (gmap string Value)) :
  child (cmd s) (json.Marshal_string (VMap Client.initRequest))
  = (c, Runtime.Reply line) ->
  json.Unmarshal_map line = Ok response ->
  exists out,
    snd (Client.Initialize child s) = Ok out
    /\ (out = []
        \/ exists result serverInfo,
             Client.get response "result" = Some (VMap result)
             /\ result !! "serverInfo" = Some (VMap serverInfo)
             /\ out = [PrintConnected (serverInfo !! "name") (serverInfo !! "version")]).
Proof.
  intros Hchild Hline. unfold Client.Initialize, Client.send. rewrite Hchild. simpl.
  rewrite Hline.
  destruct (Client.get response "result") as [[| | | | | | |result]|];
    try (exists []; split; [reflexivity|left; reflexivity]).
  destruct (result !! "serverInfo") as [[| | | | | | |serverInfo]|] eqn:Hinfo;
    try (exists []; split; [reflexivity|left; reflexivity]).
  eexists. split; [reflexivity|]. right. exists result, serverInfo.
  split; [reflexivity|]. split; [exact Hinfo|reflexivity].
Qed.


Lemma initialize_accepts_any_object_witness :
  exists out,
    snd (Client.Initialize (parrot refusal_line) (Client.NewMCPServer tt)) = Ok out
    /\ (out = []
        \/ exists result serverInfo,
             Client.get (Some (<["jsonrpc" := VString "2.0"]> (<["id" := VFloat 1]>
                {["error" := VMap (<["code" := VFloat (-32600)]>
                                  {["message" := VString "unsupported"]})]}))) "result"
             = Some (VMap result)
             /\ result !! "serverInfo" = Some (VMap serverInfo)
             /\ out = [PrintConnected (serverInfo !! "name") (serverInfo !! "version")]).
Proof.
  apply (initialize_accepts_any_object (parrot refusal_line) (Client.NewMCPServer tt) tt
           refusal_line).
  - reflexivity.
  - vm_compute. reflexivity.
Defined.
